(** * bt-fund, lesson 3: connection callbacks of a Bluetooth LE peripheral

    Shallow embedding of

      - [src/lesson3/blefund_less3_exer1/src/main.c]  (module [Exer1])
      - [src/lesson3/blefund_less3_exer2/src/main.c]  (module [Exer2])

    Both programs are sets of callbacks that the Zephyr host stack and the
    DK button driver invoke one at a time.  A callback reads and writes the
    file-level globals ([my_conn], [exchange_params]), calls into the host
    stack and the LED driver, and logs.  The embedding threads a [world]
    through a small state monad:

      - the globals are fields of [world];
      - every call that leaves the program (host stack, LED driver) is
        appended to the field [calls], in program order;
      - every [LOG_INF]/[LOG_ERR] is appended to the field [log];
      - what a host-stack function returns is not decided by this
        repository: it is read from a [host_stack] record of answers, over
        which every theorem is universally quantified. *)

From Stdlib Require Import ZArith List String Bool Lia.
Import ListNotations.
Open Scope string_scope.
Open Scope list_scope.
Open Scope Z_scope.

(** ** C data *)

(** [struct bt_conn *]: [None] is [NULL], [Some n] the n-th connection object
    of the host stack. *)
Definition conn_ptr := option nat.

Definition conn_ptr_eqb (a b : conn_ptr) : bool :=
  match a, b with
  | None, None => true
  | Some x, Some y => Nat.eqb x y
  | _, _ => false
  end.

(** Conversions of an [int] to the narrower unsigned types the code assigns
    to. *)
Definition to_uint8 (z : Z) : Z := z mod 256.
Definition to_uint16 (z : Z) : Z := z mod 65536.

(** C truth value of an integer: [if (x)]. *)
Definition truthy (z : Z) : bool := negb (z =? 0).

(** [info.le] of [struct bt_conn_info]: the fields [on_connected] reads. *)
Record bt_conn_le_info := {
  le_interval : Z;
  le_latency : Z;
  le_timeout : Z
}.

Record bt_conn_le_phy_param := {
  options : Z;
  pref_tx_phy : Z;
  pref_rx_phy : Z
}.

Record bt_conn_le_data_len_param := {
  tx_max_len : Z;
  tx_max_time : Z
}.

Record bt_conn_le_phy_info := {
  tx_phy : Z;
  rx_phy : Z
}.

Record bt_conn_le_data_len_info := {
  info_tx_max_len : Z;
  info_tx_max_time : Z;
  info_rx_max_len : Z;
  info_rx_max_time : Z
}.

(** The functions a [bt_gatt_exchange_params.func] can point to; the program
    has one. *)
Inductive callback := Cb_exchange_func.

(** Constants the sources take from SDK headers that are not part of the
    repository.  Each is a value of the C type it is used at. *)
Record sdk_consts := {
  BT_CONN_LE_PHY_OPT_NONE : Z;
  BT_GAP_LE_PHY_NONE : Z;
  BT_GAP_LE_PHY_1M : Z;
  BT_GAP_LE_PHY_2M : Z;
  BT_CONN_LE_TX_POWER_PHY_CODED_S8 : Z;
  BT_CONN_LE_TX_POWER_PHY_CODED_S2 : Z;
  BT_GAP_DATA_LEN_MAX : Z;
  BT_GAP_DATA_TIME_MAX : Z;
  DK_BTN1_MSK : Z;
  DK_LED1 : Z;
  DK_LED2 : Z
}.

(** The values the nRF Connect SDK headers give them. *)
Definition ncs : sdk_consts := {|
  BT_CONN_LE_PHY_OPT_NONE := 0;
  BT_GAP_LE_PHY_NONE := 0;
  BT_GAP_LE_PHY_1M := 1;
  BT_GAP_LE_PHY_2M := 2;
  BT_CONN_LE_TX_POWER_PHY_CODED_S8 := 3;
  BT_CONN_LE_TX_POWER_PHY_CODED_S2 := 4;
  BT_GAP_DATA_LEN_MAX := 251;
  BT_GAP_DATA_TIME_MAX := 17040;
  DK_BTN1_MSK := 1;
  DK_LED1 := 0;
  DK_LED2 := 1
|}.

(** ** Calls that leave the program *)

Inductive call :=
| Bt_conn_ref (conn : conn_ptr)
| Bt_conn_unref (conn : conn_ptr)
| Bt_conn_get_info (conn : conn_ptr)
| Bt_conn_le_phy_update (conn : conn_ptr) (param : bt_conn_le_phy_param)
| Bt_conn_le_data_len_update (conn : conn_ptr) (param : bt_conn_le_data_len_param)
| Bt_gatt_exchange_mtu (conn : conn_ptr) (func : option callback)
| Bt_gatt_get_mtu (conn : conn_ptr)
| Bt_lbs_send_button_state (button_state : bool)
| Dk_set_led (led_idx : Z) (val : Z).

(** What the host stack answers.  One record describes the stack at the time
    of one callback invocation; a callback makes each call at most once. *)
Record host_stack := {
  ref_ret : conn_ptr -> conn_ptr;
  get_info_ret : conn_ptr -> Z * bt_conn_le_info;
  phy_update_ret : conn_ptr -> bt_conn_le_phy_param -> Z;
  data_len_update_ret : conn_ptr -> bt_conn_le_data_len_param -> Z;
  exchange_mtu_ret : conn_ptr -> Z;
  get_mtu_ret : conn_ptr -> Z;
  send_button_state_ret : bool -> Z
}.

(** ** Log *)

Inductive log_level := INF | ERR.

(** A printf argument.  [LCenti n] is the [double] n/100, which is how the
    [%.2f] arguments of the sources are kept: they are an integer times 1.25,
    exact with two decimals. *)
Inductive log_arg :=
| LInt (z : Z)
| LStr (s : string)
| LCenti (hundredths : Z).

Record log_entry := {
  level : log_level;
  fmt : string;
  args : list log_arg
}.

Definition is_err (e : log_entry) : bool :=
  match level e with ERR => true | INF => false end.

(** The [LOG_ERR] lines of a log. *)
Definition errors (l : list log_entry) : list log_entry := filter is_err l.

(** ** World and monad *)

Record world := {
  my_conn : conn_ptr;                       (* struct bt_conn * my_conn *)
  exchange_params_func : option callback;   (* exchange_params.func *)
  calls : list call;
  log : list log_entry
}.

(** [my_conn = NULL], [exchange_params] zero-initialised, nothing called or
    logged yet. *)
Definition init_world : world := {|
  my_conn := None;
  exchange_params_func := None;
  calls := [];
  log := []
|}.

Definition M (A : Type) : Type := world -> A * world.

Definition ret {A} (a : A) : M A := fun w => (a, w).

Definition bind {A B} (m : M A) (k : A -> M B) : M B :=
  fun w => let (a, w') := m w in k a w'.

Definition exec {A} (m : M A) (w : world) : world := snd (m w).

Notation "x <- c1 ;; c2" := (bind c1 (fun x => c2))
  (at level 61, c1 at next level, right associativity).
Notation "c1 ;; c2" := (bind c1 (fun _ => c2))
  (at level 61, right associativity).

Definition get_my_conn : M conn_ptr := fun w => (my_conn w, w).

Definition set_my_conn (c : conn_ptr) : M unit := fun w =>
  (tt, {| my_conn := c;
          exchange_params_func := exchange_params_func w;
          calls := calls w;
          log := log w |}).

Definition get_exchange_params_func : M (option callback) :=
  fun w => (exchange_params_func w, w).

Definition set_exchange_params_func (f : option callback) : M unit := fun w =>
  (tt, {| my_conn := my_conn w;
          exchange_params_func := f;
          calls := calls w;
          log := log w |}).

Definition emit (c : call) : M unit := fun w =>
  (tt, {| my_conn := my_conn w;
          exchange_params_func := exchange_params_func w;
          calls := calls w ++ [c];
          log := log w |}).

Definition LOG (lv : log_level) (f : string) (a : list log_arg) : M unit :=
  fun w =>
  (tt, {| my_conn := my_conn w;
          exchange_params_func := exchange_params_func w;
          calls := calls w;
          log := log w ++ [{| level := lv; fmt := f; args := a |}] |}).

Definition LOG_INF := LOG INF.
Definition LOG_ERR := LOG ERR.

(** [if (c) { m }] *)
Definition when (c : bool) (m : M unit) : M unit := if c then m else ret tt.

(** How [cbn] is to run a program: through the monad and its primitives,
    but not into the arithmetic of the values logged. *)
Arguments bind {A B} m k w /.
Arguments ret {A} a w /.
Arguments exec {A} m w /.
Arguments get_my_conn w /.
Arguments set_my_conn c w /.
Arguments get_exchange_params_func w /.
Arguments set_exchange_params_func f w /.
Arguments emit c w /.
Arguments LOG lv f a w /.
Arguments LOG_INF f a w /.
Arguments LOG_ERR f a w /.
Arguments truthy : simpl never.
Arguments to_uint8 : simpl never.
Arguments to_uint16 : simpl never.
#[local] Arguments Z.mul : simpl never.
#[local] Arguments Z.sub : simpl never.
#[local] Arguments Z.land : simpl never.

(** ** Views of the call record *)

Inductive negotiation_step := PHY | DATA_LEN | MTU.

(** The negotiation request a call is, if it is one. *)
Definition request_of (c : call) : option (negotiation_step * conn_ptr) :=
  match c with
  | Bt_conn_le_phy_update conn _ => Some (PHY, conn)
  | Bt_conn_le_data_len_update conn _ => Some (DATA_LEN, conn)
  | Bt_gatt_exchange_mtu conn _ => Some (MTU, conn)
  | _ => None
  end.

(** The negotiation requests of a call record, in the order issued. *)
Fixpoint negotiation_requests (l : list call) : list (negotiation_step * conn_ptr) :=
  match l with
  | [] => []
  | c :: l' =>
      match request_of c with
      | Some r => r :: negotiation_requests l'
      | None => negotiation_requests l'
      end
  end.

(** The notification sends of a call record. *)
Fixpoint notification_sends (l : list call) : list bool :=
  match l with
  | [] => []
  | Bt_lbs_send_button_state b :: l' => b :: notification_sends l'
  | _ :: l' => notification_sends l'
  end.

(** References the program holds on [c] according to the call record:
    [bt_conn_ref] calls answered with [c] are not visible in the record, so
    the count is by argument; it is meaningful for a stack whose
    [bt_conn_ref] returns its argument. *)
Fixpoint refs_held (c : conn_ptr) (l : list call) : Z :=
  match l with
  | [] => 0
  | Bt_conn_ref c' :: l' =>
      (if conn_ptr_eqb c c' then 1 else 0) + refs_held c l'
  | Bt_conn_unref c' :: l' =>
      (if conn_ptr_eqb c c' then -1 else 0) + refs_held c l'
  | _ :: l' => refs_held c l'
  end.

(** Value last written to LED [led]; [None] when it was never written. *)
Fixpoint led_state (led : Z) (l : list call) : option Z :=
  match l with
  | [] => None
  | Dk_set_led i v :: l' =>
      match led_state led l' with
      | Some v' => Some v'
      | None => if i =? led then Some v else None
      end
  | _ :: l' => led_state led l'
  end.

(** ** Host stack and driver calls, as the sources make them *)

Section Calls.
Context (stk : host_stack).

Definition bt_conn_ref (conn : conn_ptr) : M conn_ptr :=
  emit (Bt_conn_ref conn) ;; ret (ref_ret stk conn).

Definition bt_conn_unref (conn : conn_ptr) : M unit :=
  emit (Bt_conn_unref conn).

Definition bt_conn_get_info (conn : conn_ptr) : M (Z * bt_conn_le_info) :=
  emit (Bt_conn_get_info conn) ;; ret (get_info_ret stk conn).

Definition bt_conn_le_phy_update (conn : conn_ptr)
    (param : bt_conn_le_phy_param) : M Z :=
  emit (Bt_conn_le_phy_update conn param) ;; ret (phy_update_ret stk conn param).

Definition bt_conn_le_data_len_update (conn : conn_ptr)
    (param : bt_conn_le_data_len_param) : M Z :=
  emit (Bt_conn_le_data_len_update conn param) ;;
  ret (data_len_update_ret stk conn param).

(** [bt_gatt_exchange_mtu(conn, &exchange_params)]: the stack is handed the
    parameter block as it is at the call. *)
Definition bt_gatt_exchange_mtu (conn : conn_ptr) : M Z :=
  f <- get_exchange_params_func ;;
  emit (Bt_gatt_exchange_mtu conn f) ;; ret (exchange_mtu_ret stk conn).

Definition bt_gatt_get_mtu (conn : conn_ptr) : M Z :=
  emit (Bt_gatt_get_mtu conn) ;; ret (get_mtu_ret stk conn).

Definition bt_lbs_send_button_state (button_state : bool) : M Z :=
  emit (Bt_lbs_send_button_state button_state) ;;
  ret (send_button_state_ret stk button_state).

Definition dk_set_led (led_idx val : Z) : M unit :=
  emit (Dk_set_led led_idx val).
End Calls.

Arguments bt_conn_ref stk conn w /.
Arguments bt_conn_unref conn w /.
Arguments bt_conn_get_info stk conn w /.
Arguments bt_conn_le_phy_update stk conn param w /.
Arguments bt_conn_le_data_len_update stk conn param w /.
Arguments bt_gatt_exchange_mtu stk conn w /.
Arguments bt_gatt_get_mtu stk conn w /.
Arguments bt_lbs_send_button_state stk button_state w /.
Arguments dk_set_led led_idx val w /.

(** ** Start-up: the calls and the state of [main] *)

(** [struct bt_le_adv_param] as [BT_LE_ADV_PARAM] fills it: the fields the
    macro takes as arguments; [peer] is [None] for [NULL]. *)
Record bt_le_adv_param := {
  adv_options : Z;
  interval_min : Z;
  interval_max : Z;
  peer : option Z
}.

(** [struct bt_data]: type, length and bytes of one advertising element. *)
Record bt_data := {
  data_type : Z;
  data_len : Z;
  data : list Z
}.

(** Constants and macros of the advertising data, from SDK headers and the
    build configuration, which are not part of the repository.
    [BT_UUID_128_ENCODE] yields the byte list the macro expands to;
    [CONFIG_BT_DEVICE_NAME] is the name as bytes, without the terminator. *)
Record gap_consts := {
  BT_LE_ADV_OPT_CONNECTABLE : Z;
  BT_LE_ADV_OPT_USE_IDENTITY : Z;
  BT_GAP_ADV_FAST_INT_MIN_1 : Z;
  BT_GAP_ADV_FAST_INT_MAX_1 : Z;
  BT_DATA_FLAGS : Z;
  BT_LE_AD_GENERAL : Z;
  BT_LE_AD_NO_BREDR : Z;
  BT_DATA_NAME_COMPLETE : Z;
  BT_DATA_UUID128_ALL : Z;
  BT_UUID_128_ENCODE : Z -> Z -> Z -> Z -> Z -> list Z;
  CONFIG_BT_DEVICE_NAME : list Z
}.

(** The bytes of [w], least significant first, [n] of them. *)
Fixpoint le_bytes (n : nat) (w : Z) : list Z :=
  match n with
  | O => []
  | S n' => Z.land w 255 :: le_bytes n' (Z.shiftr w 8)
  end.

(** The values of the nRF Connect SDK, with the device name "MY_LBS1". *)
Definition ncs_gap : gap_consts := {|
  BT_LE_ADV_OPT_CONNECTABLE := 1;
  BT_LE_ADV_OPT_USE_IDENTITY := 4;
  BT_GAP_ADV_FAST_INT_MIN_1 := 48;
  BT_GAP_ADV_FAST_INT_MAX_1 := 96;
  BT_DATA_FLAGS := 1;
  BT_LE_AD_GENERAL := 2;
  BT_LE_AD_NO_BREDR := 4;
  BT_DATA_NAME_COMPLETE := 9;
  BT_DATA_UUID128_ALL := 7;
  BT_UUID_128_ENCODE := fun w32 w1 w2 w3 w48 =>
    le_bytes 6 w48 ++ le_bytes 2 w3 ++ le_bytes 2 w2 ++ le_bytes 2 w1 ++
    le_bytes 4 w32;
  CONFIG_BT_DEVICE_NAME := [77; 89; 95; 76; 66; 83; 49]
|}.

(** What [main] hands over when it registers a function or a table. *)
Inductive registered :=
| Fn_button_handler
| Fn_button_changed
| Tbl_connection_callbacks.

(** The calls of [main]; [App_call] is a call the callbacks make as well. *)
Inductive sys_call :=
| Dk_leds_init
| Dk_buttons_init (handler : registered)
| Bt_conn_cb_register (cb : registered)
| Bt_enable
| Bt_le_adv_start (param : bt_le_adv_param) (ad : list bt_data) (sd : list bt_data)
| K_sleep (ms : Z)
| App_call (c : call).

(** What the initialisation functions return to [main]. *)
Record startup_answers := {
  leds_init_ret : Z;
  buttons_init_ret : Z;
  enable_ret : Z;
  adv_start_ret : Z
}.

Definition all_succeed : startup_answers := {|
  leds_init_ret := 0;
  buttons_init_ret := 0;
  enable_ret := 0;
  adv_start_ret := 0
|}.

(** Every initialisation function returned 0. *)
Definition startup_ok (a : startup_answers) : bool :=
  negb (truthy (leds_init_ret a)) && negb (truthy (buttons_init_ret a)) &&
  negb (truthy (enable_ret a)) && negb (truthy (adv_start_ret a)).

(** [main] runs before any callback and touches none of their globals: its
    state is the record of its calls and its log. *)
Record boot := {
  trace : list sys_call;
  boot_log : list log_entry
}.

Definition init_boot : boot := {| trace := []; boot_log := [] |}.

Definition B (A : Type) : Type := boot -> A * boot.

Module Boot.

Definition ret {A} (a : A) : B A := fun b => (a, b).

Definition bind {A B'} (m : B A) (k : A -> B B') : B B' :=
  fun b => let (a, b') := m b in k a b'.

Definition emit (c : sys_call) : B unit := fun b =>
  (tt, {| trace := trace b ++ [c]; boot_log := boot_log b |}).

Definition LOG (lv : log_level) (f : string) (a : list log_arg) : B unit :=
  fun b =>
  (tt, {| trace := trace b;
          boot_log := boot_log b ++ [{| level := lv; fmt := f; args := a |}] |}).

Definition LOG_INF := LOG INF.
Definition LOG_ERR := LOG ERR.

Section Calls.
Context (a : startup_answers).

Definition dk_leds_init : B Z :=
  bind (emit Dk_leds_init) (fun _ => ret (leds_init_ret a)).

Definition dk_buttons_init (handler : registered) : B Z :=
  bind (emit (Dk_buttons_init handler)) (fun _ => ret (buttons_init_ret a)).

Definition bt_conn_cb_register (cb : registered) : B unit :=
  emit (Bt_conn_cb_register cb).

Definition bt_enable : B Z :=
  bind (emit Bt_enable) (fun _ => ret (enable_ret a)).

Definition bt_le_adv_start (param : bt_le_adv_param)
    (ad sd : list bt_data) : B Z :=
  bind (emit (Bt_le_adv_start param ad sd)) (fun _ => ret (adv_start_ret a)).
End Calls.

Definition dk_set_led (led_idx val : Z) : B unit :=
  emit (App_call (Dk_set_led led_idx val)).

Definition k_sleep (ms : Z) : B unit := emit (K_sleep ms).

End Boot.

Declare Scope boot_scope.
Delimit Scope boot_scope with boot.
Notation "x <- c1 ;; c2" := (Boot.bind c1 (fun x => c2)) : boot_scope.
Notation "c1 ;; c2" := (Boot.bind c1 (fun _ => c2)) : boot_scope.

Arguments Boot.bind {A B'} m k b /.
Arguments Boot.ret {A} a b /.
Arguments Boot.emit c b /.
Arguments Boot.LOG lv f a b /.
Arguments Boot.LOG_INF f a b /.
Arguments Boot.LOG_ERR f a b /.
Arguments Boot.dk_leds_init a b /.
Arguments Boot.dk_buttons_init a handler b /.
Arguments Boot.bt_conn_cb_register cb b /.
Arguments Boot.bt_enable a b /.
Arguments Boot.bt_le_adv_start a param ad sd b /.
Arguments Boot.dk_set_led led_idx val b /.
Arguments Boot.k_sleep ms b /.

(** Line feed, the last character of the first line [main] logs. *)
Definition LF : string := String (Ascii.ascii_of_nat 10) EmptyString.

(** The values a start-up writes to LED [led], in order. *)
Fixpoint led_writes (led : Z) (l : list sys_call) : list Z :=
  match l with
  | [] => []
  | App_call (Dk_set_led i v) :: l' =>
      if i =? led then v :: led_writes led l' else led_writes led l'
  | _ :: l' => led_writes led l'
  end.

(** [n] values, alternately [v] and [1 - v]. *)
Fixpoint alternating (n : nat) (v : Z) : list Z :=
  match n with
  | O => []
  | S n' => v :: alternating n' (1 - v)
  end.

(** The calls of a start-up that are not part of the blink loop. *)
Definition is_init_call (c : sys_call) : bool :=
  match c with
  | K_sleep _ | App_call _ => false
  | _ => true
  end.

(** ** Exercise 1: [blefund_less3_exer1/src/main.c] *)

Module Exer1.
Section Program.
Context (K : sdk_consts) (stk : host_stack).

Definition USER_BUTTON : Z := DK_BTN1_MSK K.
Definition RUN_STATUS_LED : Z := DK_LED1 K.
Definition CON_STATUS_LED : Z := DK_LED2 K.

Definition connected_cb (conn : conn_ptr) (err : Z) : M unit :=
  if truthy err then
    LOG_ERR "Connection failed (err %u)" [LInt err]
  else
    LOG_INF "Connected" [] ;;
    c <- bt_conn_ref stk conn ;;
    set_my_conn c ;;
    dk_set_led CON_STATUS_LED 1.

Definition disconnected_cb (conn : conn_ptr) (reason : Z) : M unit :=
  LOG_INF "Disconnected (reason %u)" [LInt reason] ;;
  my <- get_my_conn ;;
  bt_conn_unref my ;;
  dk_set_led CON_STATUS_LED 0.

Definition button_handler (button_state has_changed : Z) : M unit :=
  when (truthy (Z.land has_changed USER_BUTTON))
    (LOG_INF "Button state changed to 0x%08x" [LInt button_state] ;;
     err <- bt_lbs_send_button_state stk (truthy button_state) ;;
     when (truthy err)
       (LOG_ERR "Failed to send button state, error code: %d" [LInt err])).
End Program.

(** *** Callbacks, as registered *)

(** [connection_callbacks] has two entries; the button driver calls
    [button_handler]. *)
Inductive event :=
| Ev_connected (conn : conn_ptr) (err : Z)
| Ev_disconnected (conn : conn_ptr) (reason : Z)
| Ev_button (button_state has_changed : Z).

Definition dispatch (K : sdk_consts) (stk : host_stack) (e : event) : M unit :=
  match e with
  | Ev_connected conn err => connected_cb K stk conn err
  | Ev_disconnected conn reason => disconnected_cb K conn reason
  | Ev_button s c => button_handler K stk s c
  end.

Fixpoint run (K : sdk_consts) (evs : list (host_stack * event)) : M unit :=
  match evs with
  | [] => ret tt
  | (stk, e) :: evs' => dispatch K stk e ;; run K evs'
  end.

(** *** Start-up *)

Section Startup.
Context (K : sdk_consts) (G : gap_consts) (a : startup_answers).

Definition RUN_LED_BLINK_INTERVAL : Z := 1000.

Definition adv_param : bt_le_adv_param := {|
  adv_options := Z.lor (BT_LE_ADV_OPT_CONNECTABLE G) (BT_LE_ADV_OPT_USE_IDENTITY G);
  interval_min := BT_GAP_ADV_FAST_INT_MIN_1 G;
  interval_max := BT_GAP_ADV_FAST_INT_MAX_1 G;
  peer := None
|}.

Definition DEVICE_NAME : list Z := CONFIG_BT_DEVICE_NAME G.

(** [sizeof(DEVICE_NAME) - 1]: the size counts the terminator. *)
Definition DEVICE_NAME_LEN : Z := (Z.of_nat (List.length DEVICE_NAME) + 1) - 1.

Definition ad : list bt_data := [
  {| data_type := BT_DATA_FLAGS G;
     data_len := 1;
     data := [Z.lor (BT_LE_AD_GENERAL G) (BT_LE_AD_NO_BREDR G)] |};
  {| data_type := BT_DATA_NAME_COMPLETE G;
     data_len := DEVICE_NAME_LEN;
     data := DEVICE_NAME |}
].

Definition lbs_uuid : list Z :=
  BT_UUID_128_ENCODE G 0x00001523 0x1212 0xefde 0x1523 0x785feabcd123.

Definition sd : list bt_data := [
  {| data_type := BT_DATA_UUID128_ALL G;
     data_len := Z.of_nat (List.length lbs_uuid);
     data := lbs_uuid |}
].

Definition init_button : B Z :=
  (err <- Boot.dk_buttons_init a Fn_button_handler ;;
   (if truthy err
    then Boot.LOG_ERR "Cannot init buttons (err %d)" [LInt err]
    else Boot.ret tt) ;;
   Boot.ret err)%boot.

(** The [for (;;)] loop, [fuel] rounds of it: [None] says that the loop is
    still running when the fuel is used up.  [blink_status] is an [int]; the
    model counts in [Z], which is what C does up to [INT_MAX] rounds. *)
Fixpoint blink (fuel : nat) (blink_status : Z) : B (option unit) :=
  match fuel with
  | O => Boot.ret None
  | S fuel' =>
      let blink_status := blink_status + 1 in
      (Boot.dk_set_led (RUN_STATUS_LED K) (Z.rem blink_status 2) ;;
       Boot.k_sleep RUN_LED_BLINK_INTERVAL ;;
       blink fuel' blink_status)%boot
  end.

(** [main]; [Some tt] is a [return]. *)
Definition main (fuel : nat) : B (option unit) :=
  let blink_status := 0 in
  (Boot.LOG_INF (String.append "Starting Lesson 3 - Exercise 1" LF) [] ;;
   err <- Boot.dk_leds_init a ;;
   if truthy err then
     Boot.LOG_ERR "LEDs init failed (err %d)" [LInt err] ;; Boot.ret (Some tt)
   else
     err <- init_button ;;
     if truthy err then
       Boot.LOG_INF "Button init failed (err %d)" [LInt err] ;; Boot.ret (Some tt)
     else
       Boot.bt_conn_cb_register Tbl_connection_callbacks ;;
       Boot.LOG_INF "Connection callbacks registered" [] ;;
       err <- Boot.bt_enable a ;;
       if truthy err then
         Boot.LOG_ERR "Bluetooth init failed (err %d)" [LInt err] ;;
         Boot.ret (Some tt)
       else
         Boot.LOG_INF "Bluetooth initialized" [] ;;
         err <- Boot.bt_le_adv_start a adv_param ad sd ;;
         if truthy err then
           Boot.LOG_ERR "Advertising failed to start (err %d)" [LInt err] ;;
           Boot.ret (Some tt)
         else
           Boot.LOG_INF "Advertising successfully started" [] ;;
           blink fuel blink_status)%boot.
End Startup.

End Exer1.

(** ** Exercise 2: [blefund_less3_exer2/src/main.c] *)

Module Exer2.
Section Program.
Context (K : sdk_consts) (stk : host_stack).

Definition USER_BUTTON : Z := DK_BTN1_MSK K.
Definition RUN_STATUS_LED : Z := DK_LED1 K.
Definition CONNECTION_STATUS_LED : Z := DK_LED2 K.

Definition phy_param : bt_conn_le_phy_param := {|
  options := BT_CONN_LE_PHY_OPT_NONE K;
  pref_tx_phy := BT_GAP_LE_PHY_2M K;
  pref_rx_phy := BT_GAP_LE_PHY_2M K
|}.

Definition update_phy (conn : conn_ptr) : M unit :=
  err <- bt_conn_le_phy_update stk conn phy_param ;;
  when (truthy err) (LOG_ERR "PHY update failed (err %d)" [LInt err]).

Definition data_len_param : bt_conn_le_data_len_param := {|
  tx_max_len := BT_GAP_DATA_LEN_MAX K;
  tx_max_time := BT_GAP_DATA_TIME_MAX K
|}.

Definition update_data_length (conn : conn_ptr) : M unit :=
  err <- bt_conn_le_data_len_update stk conn data_len_param ;;
  if truthy err then
    LOG_ERR "Data length update failed (err %d)" [LInt err]
  else
    LOG_INF "Data length updated: TX %u, time %u"
      [LInt (tx_max_len data_len_param); LInt (tx_max_time data_len_param)].

Definition update_mtu (conn : conn_ptr) : M unit :=
  set_exchange_params_func (Some Cb_exchange_func) ;;
  err <- bt_gatt_exchange_mtu stk conn ;;
  if truthy err then
    LOG_ERR "MTU exchange failed (err %d)" [LInt err]
  else
    LOG_INF "MTU exchange pending" [].

(** [err] is the [uint8_t] parameter; it is reused for the [int] that
    [bt_conn_get_info] returns, hence [to_uint8]. *)
Definition on_connected (conn : conn_ptr) (err : Z) : M unit :=
  if truthy err then
    LOG_ERR "Connection error %d" [LInt err]
  else
    LOG_INF "Connected" [] ;;
    c <- bt_conn_ref stk conn ;;
    set_my_conn c ;;
    dk_set_led CONNECTION_STATUS_LED 1 ;;
    my <- get_my_conn ;;
    r <- bt_conn_get_info stk my ;;
    let err := to_uint8 (fst r) in
    let info := snd r in
    if truthy err then
      LOG_ERR "Cannot get connection info, err %d" [LInt err]
    else
      let interval := 125 * le_interval info in
      let timeout := to_uint16 (le_timeout info * 10) in
      LOG_INF "Connection parameters: interval %.2f ms, timeout %d ms, latency %d intervals"
        [LCenti interval; LInt timeout; LInt (le_latency info)] ;;
      my <- get_my_conn ;;
      update_phy my ;;
      my <- get_my_conn ;;
      update_data_length my ;;
      my <- get_my_conn ;;
      update_mtu my.

(** The path condition under which [on_connected] gets past both of its
    [return]s: the event carries no error and [bt_conn_get_info] on the
    referenced connection returns one that is 0 as a [uint8_t]. *)
Definition reaches_negotiation (conn : conn_ptr) (err : Z) : bool :=
  negb (truthy err) &&
  negb (truthy (to_uint8 (fst (get_info_ret stk (ref_ret stk conn))))).

Definition on_disconnected (conn : conn_ptr) (reason : Z) : M unit :=
  LOG_INF "Disconnected. Reason %d" [LInt reason] ;;
  dk_set_led CONNECTION_STATUS_LED 0 ;;
  my <- get_my_conn ;;
  bt_conn_unref my.

Definition on_le_param_updated (conn : conn_ptr)
    (interval latency timeout : Z) : M unit :=
  LOG_INF "Connection parameters updated: interval %.2f ms, timeout %d ms, latency %d intervals"
    [LCenti (125 * interval); LInt (timeout * 10); LInt latency].

Record phy_name := {
  phy_option : Z;
  name : string
}.

Definition phy_names : list phy_name := [
  {| phy_option := BT_GAP_LE_PHY_NONE K; name := "No preferred PHY" |};
  {| phy_option := BT_GAP_LE_PHY_1M K; name := "1M PHY" |};
  {| phy_option := BT_GAP_LE_PHY_2M K; name := "2M PHY" |};
  {| phy_option := BT_CONN_LE_TX_POWER_PHY_CODED_S8 K; name := "Coded PHY, S=8" |};
  {| phy_option := BT_CONN_LE_TX_POWER_PHY_CODED_S2 K; name := "Coded PHY, S=2" |}
].

(** The body of the [for] loop, then the rest of the table. *)
Fixpoint phy_loop (info : bt_conn_le_phy_info) (l : list phy_name) : M unit :=
  match l with
  | [] => ret tt
  | p :: l' =>
      when (phy_option p =? tx_phy info)
        (LOG_INF "TX PHY updated: %s" [LStr (name p)]) ;;
      when (phy_option p =? rx_phy info)
        (LOG_INF "RX PHY updated: %s" [LStr (name p)]) ;;
      phy_loop info l'
  end.

Definition on_le_phy_updated (conn : conn_ptr)
    (info : bt_conn_le_phy_info) : M unit :=
  phy_loop info phy_names.

Definition on_le_data_length_updated (conn : conn_ptr)
    (info : bt_conn_le_data_len_info) : M unit :=
  LOG_INF "Data length updated: TX: %u bytes, time %u; RX: %u bytes, time %u"
    [LInt (info_tx_max_len info); LInt (info_tx_max_time info);
     LInt (info_rx_max_len info); LInt (info_rx_max_time info)].

(** [bt_gatt_get_mtu] returns a [uint16_t]; the subtraction is done in
    [int], so it does not wrap. *)
Definition exchange_func (conn : conn_ptr) (err : Z) : M unit :=
  LOG_INF "MTU exchange %s"
    [LStr (if err =? 0 then "successful" else "failed")] ;;
  when (negb (truthy err))
    (mtu <- bt_gatt_get_mtu stk conn ;;
     LOG_INF "Negotiated MTU is %d bytes" [LInt (mtu - 3)]).

Definition button_changed (button_state has_changed : Z) : M unit :=
  when (truthy (Z.land has_changed USER_BUTTON))
    (LOG_INF "Button changed" [] ;;
     err <- bt_lbs_send_button_state stk (truthy button_state) ;;
     when (truthy err)
       (LOG_ERR "Couldn't send notification. err: %d" [LInt err])).
End Program.

(** *** The callbacks as the host stack and the button driver invoke them *)

(** One invocation: which callback, with which arguments.  [connection_callbacks]
    registers the first five; [Ev_mtu_exchanged] is the stack calling
    [exchange_params.func]; [Ev_button] is the button driver calling the
    handler given to [dk_buttons_init]. *)
Inductive event :=
| Ev_connected (conn : conn_ptr) (err : Z)
| Ev_disconnected (conn : conn_ptr) (reason : Z)
| Ev_le_param_updated (conn : conn_ptr) (interval latency timeout : Z)
| Ev_le_phy_updated (conn : conn_ptr) (info : bt_conn_le_phy_info)
| Ev_le_data_len_updated (conn : conn_ptr) (info : bt_conn_le_data_len_info)
| Ev_mtu_exchanged (conn : conn_ptr) (err : Z)
| Ev_button (button_state has_changed : Z).

Definition dispatch (K : sdk_consts) (stk : host_stack) (e : event) : M unit :=
  match e with
  | Ev_connected conn err => on_connected K stk conn err
  | Ev_disconnected conn reason => on_disconnected K conn reason
  | Ev_le_param_updated conn i l t => on_le_param_updated conn i l t
  | Ev_le_phy_updated conn info => on_le_phy_updated K conn info
  | Ev_le_data_len_updated conn info => on_le_data_length_updated conn info
  | Ev_mtu_exchanged conn err =>
      f <- get_exchange_params_func ;;
      match f with
      | Some Cb_exchange_func => exchange_func stk conn err
      | None => ret tt
      end
  | Ev_button s c => button_changed K stk s c
  end.


(** A run: the invocations in the order they are delivered, each with the
    answers the stack gives during it. *)
Fixpoint run (K : sdk_consts) (evs : list (host_stack * event)) : M unit :=
  match evs with
  | [] => ret tt
  | (stk, e) :: evs' => dispatch K stk e ;; run K evs'
  end.

(** *** Start-up *)

Section Startup.
Context (K : sdk_consts) (G : gap_consts) (a : startup_answers).

Definition RUN_LED_BLINK_INTERVAL : Z := 1000.

Definition adv_param : bt_le_adv_param := {|
  adv_options := Z.lor (BT_LE_ADV_OPT_CONNECTABLE G) (BT_LE_ADV_OPT_USE_IDENTITY G);
  interval_min := BT_GAP_ADV_FAST_INT_MIN_1 G;
  interval_max := BT_GAP_ADV_FAST_INT_MAX_1 G;
  peer := None
|}.

Definition DEVICE_NAME : list Z := CONFIG_BT_DEVICE_NAME G.

(** [sizeof(DEVICE_NAME) - 1]: the size counts the terminator. *)
Definition DEVICE_NAME_LEN : Z := (Z.of_nat (List.length DEVICE_NAME) + 1) - 1.

Definition ad : list bt_data := [
  {| data_type := BT_DATA_FLAGS G;
     data_len := 1;
     data := [Z.lor (BT_LE_AD_GENERAL G) (BT_LE_AD_NO_BREDR G)] |};
  {| data_type := BT_DATA_NAME_COMPLETE G;
     data_len := DEVICE_NAME_LEN;
     data := DEVICE_NAME |}
].

Definition lbs_uuid : list Z :=
  BT_UUID_128_ENCODE G 0x00001523 0x1212 0xefde 0x1523 0x785feabcd123.

Definition sd : list bt_data := [
  {| data_type := BT_DATA_UUID128_ALL G;
     data_len := Z.of_nat (List.length lbs_uuid);
     data := lbs_uuid |}
].

Definition init_button : B Z :=
  (err <- Boot.dk_buttons_init a Fn_button_changed ;;
   (if truthy err
    then Boot.LOG_INF "Cannot init buttons (err: %d)" [LInt err]
    else Boot.ret tt) ;;
   Boot.ret err)%boot.

(** The [for (;;)] loop, [fuel] rounds of it: [None] says that the loop is
    still running when the fuel is used up.  [blink_status] is an [int]; the
    model counts in [Z], which is what C does up to [INT_MAX] rounds. *)
Fixpoint blink (fuel : nat) (blink_status : Z) : B (option unit) :=
  match fuel with
  | O => Boot.ret None
  | S fuel' =>
      let blink_status := blink_status + 1 in
      (Boot.dk_set_led (RUN_STATUS_LED K) (Z.rem blink_status 2) ;;
       Boot.k_sleep RUN_LED_BLINK_INTERVAL ;;
       blink fuel' blink_status)%boot
  end.

(** [main]; [Some tt] is a [return]. *)
Definition main (fuel : nat) : B (option unit) :=
  let blink_status := 0 in
  (Boot.LOG_INF (String.append "Starting Lesson 3 - Exercise 2" LF) [] ;;
   err <- Boot.dk_leds_init a ;;
   if truthy err then
     Boot.LOG_ERR "LEDs init failed (err %d)" [LInt err] ;; Boot.ret (Some tt)
   else
     err <- init_button ;;
     if truthy err then
       Boot.LOG_ERR "Button init failed (err %d)" [LInt err] ;; Boot.ret (Some tt)
     else
       Boot.bt_conn_cb_register Tbl_connection_callbacks ;;
       err <- Boot.bt_enable a ;;
       if truthy err then
         Boot.LOG_ERR "Bluetooth init failed (err %d)" [LInt err] ;;
         Boot.ret (Some tt)
       else
         Boot.LOG_INF "Bluetooth initialized" [] ;;
         err <- Boot.bt_le_adv_start a adv_param ad sd ;;
         if truthy err then
           Boot.LOG_ERR "Advertising failed to start (err %d)" [LInt err] ;;
           Boot.ret (Some tt)
         else
           Boot.LOG_INF "Advertising successfully started" [] ;;
           blink fuel blink_status)%boot.
End Startup.

End Exer2.

(** ** A stack on which everything succeeds *)

(** [bt_conn_ref] returns its argument, every request returns 0, the
    connection runs at interval 24 (30 ms), latency 0, timeout 72 (720 ms),
    and the ATT MTU is 247. *)
Definition nominal_stack : host_stack := {|
  ref_ret := fun c => c;
  get_info_ret := fun _ =>
    (0, {| le_interval := 24; le_latency := 0; le_timeout := 72 |});
  phy_update_ret := fun _ _ => 0;
  data_len_update_ret := fun _ _ => 0;
  exchange_mtu_ret := fun _ => 0;
  get_mtu_ret := fun _ => 247;
  send_button_state_ret := fun _ => 0
|}.

(** The same stack, refusing the PHY request with [-EIO] and the data length
    request with [-EINVAL]. *)
Definition refusing_stack : host_stack := {|
  ref_ret := fun c => c;
  get_info_ret := get_info_ret nominal_stack;
  phy_update_ret := fun _ _ => -5;
  data_len_update_ret := fun _ _ => -22;
  exchange_mtu_ret := fun _ => 0;
  get_mtu_ret := fun _ => 247;
  send_button_state_ret := fun _ => 0
|}.

(** The nominal stack with a [bt_conn_get_info] that returns [-EINVAL]. *)
Definition no_info_stack : host_stack := {|
  ref_ret := fun c => c;
  get_info_ret := fun _ => (-22, snd (get_info_ret nominal_stack None));
  phy_update_ret := fun _ _ => 0;
  data_len_update_ret := fun _ _ => 0;
  exchange_mtu_ret := fun _ => 0;
  get_mtu_ret := fun _ => 247;
  send_button_state_ret := fun _ => 0
|}.

(** The nominal stack on a link whose supervision timeout is 6554 units,
    the first value whose tenfold does not fit a [uint16_t]. *)
Definition long_timeout_stack : host_stack := {|
  ref_ret := fun c => c;
  get_info_ret := fun _ =>
    (0, {| le_interval := 24; le_latency := 0; le_timeout := 6554 |});
  phy_update_ret := fun _ _ => 0;
  data_len_update_ret := fun _ _ => 0;
  exchange_mtu_ret := fun _ => 0;
  get_mtu_ret := fun _ => 247;
  send_button_state_ret := fun _ => 0
|}.

(** ** What a run leaves behind, read off its events *)

(** The pointer in [my_conn] after the events, from [c0] before them: the
    last [connected] event without error decides. *)
Fixpoint tracked_after (evs : list (host_stack * Exer2.event)) (c0 : conn_ptr)
    : conn_ptr :=
  match evs with
  | [] => c0
  | (stk, Exer2.Ev_connected conn err) :: evs' =>
      tracked_after evs' (if truthy err then c0 else ref_ret stk conn)
  | _ :: evs' => tracked_after evs' c0
  end.

(** The value last written to the connection status LED after the events,
    from [v0] before them. *)
Fixpoint link_led_after (evs : list (host_stack * Exer2.event)) (v0 : option Z)
    : option Z :=
  match evs with
  | [] => v0
  | (_, Exer2.Ev_connected _ err) :: evs' =>
      link_led_after evs' (if truthy err then v0 else Some 1)
  | (_, Exer2.Ev_disconnected _ _) :: evs' => link_led_after evs' (Some 0)
  | _ :: evs' => link_led_after evs' v0
  end.

(** The negotiation requests of the events: three for each [connected] event
    that gets [on_connected] past its [return]s. *)
Fixpoint requests_of_run (evs : list (host_stack * Exer2.event))
    : list (negotiation_step * conn_ptr) :=
  match evs with
  | [] => []
  | (stk, Exer2.Ev_connected conn err) :: evs' =>
      (if Exer2.reaches_negotiation stk conn err
       then [(PHY, ref_ret stk conn); (DATA_LEN, ref_ret stk conn);
             (MTU, ref_ret stk conn)]
       else []) ++ requests_of_run evs'
  | _ :: evs' => requests_of_run evs'
  end.

(** The notifications of the events: one for each button event that has the
    [USER_BUTTON] bit among the changed ones. *)
Fixpoint sends_of_run (K : sdk_consts) (evs : list (host_stack * Exer2.event))
    : list bool :=
  match evs with
  | [] => []
  | (_, Exer2.Ev_button s c) :: evs' =>
      (if truthy (Z.land c (DK_BTN1_MSK K)) then [truthy s] else []) ++
      sends_of_run K evs'
  | _ :: evs' => sends_of_run K evs'
  end.

Definition is_connected_ok (se : host_stack * Exer2.event) : bool :=
  match snd se with
  | Exer2.Ev_connected _ err => negb (truthy err)
  | _ => false
  end.

Definition is_disconnected (se : host_stack * Exer2.event) : bool :=
  match snd se with
  | Exer2.Ev_disconnected _ _ => true
  | _ => false
  end.

Definition is_ref (c : call) : bool :=
  match c with Bt_conn_ref _ => true | _ => false end.

Definition is_unref (c : call) : bool :=
  match c with Bt_conn_unref _ => true | _ => false end.

(** A call other than an MTU request without completion callback. *)
Definition has_callback (c : call) : bool :=
  match c with
  | Bt_gatt_exchange_mtu _ None => false
  | _ => true
  end.

(** A call other than the release of an actual connection. *)
Definition releases_null (c : call) : bool :=
  match c with
  | Bt_conn_unref (Some _) => false
  | _ => true
  end.

(** The events of exercise 2 that exercise 1 has a callback for. *)
Definition forget (e : Exer2.event) : option Exer1.event :=
  match e with
  | Exer2.Ev_connected conn err => Some (Exer1.Ev_connected conn err)
  | Exer2.Ev_disconnected conn reason => Some (Exer1.Ev_disconnected conn reason)
  | Exer2.Ev_button s c => Some (Exer1.Ev_button s c)
  | _ => None
  end.

Fixpoint forget_run (evs : list (host_stack * Exer2.event))
    : list (host_stack * Exer1.event) :=
  match evs with
  | [] => []
  | (stk, e) :: evs' =>
      match forget e with
      | Some e1 => (stk, e1) :: forget_run evs'
      | None => forget_run evs'
      end
  end.

(** [n] connections made and lost one after the other, on a stack whose
    [bt_conn_ref] returns its argument. *)
Fixpoint cycles (stk : host_stack) (l : list (conn_ptr * Z))
    : list (host_stack * Exer2.event) :=
  match l with
  | [] => []
  | (conn, reason) :: l' =>
      (stk, Exer2.Ev_connected conn 0) ::
      (stk, Exer2.Ev_disconnected conn reason) :: cycles stk l'
  end.

(** The lines of a log with a given format. *)
Definition lines_with (f : string) (l : list log_entry) : list log_entry :=
  filter (fun e => String.eqb (fmt e) f) l.


(** * Properties *)

(** ** Views of the call record and concatenation *)

Lemma negotiation_requests_app (l1 l2 : list call) :
  negotiation_requests (l1 ++ l2) =
  negotiation_requests l1 ++ negotiation_requests l2.
Proof.
  induction l1 as [|c l1 IH]; cbn; [reflexivity|].
  destruct (request_of c); cbn; now rewrite IH.
Qed.

Lemma notification_sends_app (l1 l2 : list call) :
  notification_sends (l1 ++ l2) =
  notification_sends l1 ++ notification_sends l2.
Proof.
  induction l1 as [|c l1 IH]; cbn; [reflexivity|].
  destruct c; cbn; now rewrite IH.
Qed.

Lemma refs_held_app (c : conn_ptr) (l1 l2 : list call) :
  refs_held c (l1 ++ l2) = refs_held c l1 + refs_held c l2.
Proof.
  induction l1 as [|x l1 IH]; cbn; [reflexivity|].
  destruct x; cbn; rewrite IH; lia.
Qed.

Lemma conn_ptr_eqb_refl (c : conn_ptr) : conn_ptr_eqb c c = true.
Proof. destruct c; cbn; [apply Nat.eqb_refl | reflexivity]. Qed.

Lemma led_state_last (led v : Z) (l : list call) :
  led_state led (l ++ [Dk_set_led led v]) = Some v.
Proof.
  induction l as [|x l IH]; cbn.
  - now rewrite Z.eqb_refl.
  - destruct x; try exact IH. now rewrite IH.
Qed.

Lemma led_state_skip (led : Z) (l : list call) (c : call) :
  (forall i v, c <> Dk_set_led i v) ->
  led_state led (l ++ [c]) = led_state led l.
Proof.
  intros Hc. induction l as [|x l IH]; cbn.
  - destruct c; try reflexivity. now destruct (Hc led_idx val).
  - destruct x; try exact IH. now rewrite IH.
Qed.

Lemma truthy_false_iff (z : Z) : truthy z = false <-> z = 0.
Proof.
  unfold truthy. destruct (Z.eqb_spec z 0); cbn; split; congruence.
Qed.

Lemma truthy_true_iff (z : Z) : truthy z = true <-> z <> 0.
Proof.
  unfold truthy. destruct (Z.eqb_spec z 0); cbn; split; congruence.
Qed.

Lemma truthy_0 : truthy 0 = false.
Proof. reflexivity. Qed.

(** Runs the three [update_*] calls of [Exer2.on_connected], splitting on
    what each request returns: eight paths. *)
Ltac negotiation_paths stk :=
  unfold Exer2.update_phy, Exer2.update_data_length, Exer2.update_mtu; cbn;
  destruct (truthy (phy_update_ret stk _ _)); cbn;
  destruct (truthy (data_len_update_ret stk _ _)); cbn;
  destruct (truthy (exchange_mtu_ret stk _)); cbn.

(** ** The connected handlers *)

Section Connected.
Context (K : sdk_consts) (stk : host_stack).

(** What [Exer1.connected_cb] does on a successful link. *)
Lemma connected_cb_ok (conn : conn_ptr) (w : world) :
  exec (Exer1.connected_cb K stk conn 0) w =
  {| my_conn := ref_ret stk conn;
     exchange_params_func := exchange_params_func w;
     calls := calls w ++ [Bt_conn_ref conn; Dk_set_led (DK_LED2 K) 1];
     log := log w ++ [{| level := INF; fmt := "Connected"; args := [] |}] |}.
Proof.
  unfold Exer1.connected_cb. rewrite truthy_0. cbn.
  now rewrite <- app_assoc.
Qed.

(** [Exer2.on_connected] stores what [bt_conn_ref] returned, on every path
    past the first [return]. *)
Lemma on_connected_my_conn (conn : conn_ptr) (w : world) :
  my_conn (exec (Exer2.on_connected K stk conn 0) w) = ref_ret stk conn.
Proof.
  unfold Exer2.on_connected. rewrite truthy_0. cbn.
  destruct (truthy (to_uint8 _)); cbn; [reflexivity|].
  negotiation_paths stk; reflexivity.
Qed.

(** The calls of [Exer2.on_connected] when it gets past both [return]s:
    the three requests follow each other whatever each of them returns. *)
Lemma on_connected_calls (conn : conn_ptr) (err : Z) (w : world) :
  Exer2.reaches_negotiation stk conn err = true ->
  calls (exec (Exer2.on_connected K stk conn err) w) =
  calls w ++
  [Bt_conn_ref conn;
   Dk_set_led (DK_LED2 K) 1;
   Bt_conn_get_info (ref_ret stk conn);
   Bt_conn_le_phy_update (ref_ret stk conn) (Exer2.phy_param K);
   Bt_conn_le_data_len_update (ref_ret stk conn) (Exer2.data_len_param K);
   Bt_gatt_exchange_mtu (ref_ret stk conn) (Some Cb_exchange_func)].
Proof.
  unfold Exer2.reaches_negotiation. intros H.
  apply andb_prop in H as [He Hi].
  apply negb_true_iff in He, Hi.
  unfold Exer2.on_connected. rewrite He; cbn. rewrite Hi; cbn.
  negotiation_paths stk; now repeat rewrite <- app_assoc.
Qed.
End Connected.

(** The log lines [Exer2.on_connected] adds do not depend on the world it
    starts from: they are the ones it logs from [init_world]. *)
Lemma on_connected_log_frame (K : sdk_consts) (stk : host_stack)
    (conn : conn_ptr) (err : Z) (w : world) :
  log (exec (Exer2.on_connected K stk conn err) w) =
  log w ++ log (exec (Exer2.on_connected K stk conn err) init_world).
Proof.
  unfold Exer2.on_connected.
  destruct (truthy err); cbn; [reflexivity|].
  destruct (truthy (to_uint8 _)); cbn; [now rewrite <- app_assoc|].
  negotiation_paths stk; now repeat rewrite <- app_assoc.
Qed.

(** [Exer2.on_connected] with [err = 0] takes one reference, on the
    connection it is given, on both of its remaining paths, and makes no
    call after its own that writes the LED. *)
Lemma on_connected_refs_held (K : sdk_consts) (stk : host_stack)
    (conn c : conn_ptr) (w : world) :
  let w1 := exec (Exer2.on_connected K stk conn 0) w in
  refs_held c (calls w1) =
    refs_held c (calls w) + (if conn_ptr_eqb c conn then 1 else 0) /\
  led_state (DK_LED2 K) (calls w1) = Some 1.
Proof.
  cbv zeta. unfold Exer2.on_connected. rewrite truthy_0. cbn.
  destruct (truthy (to_uint8 _)); cbn.
  - rewrite !refs_held_app. cbn. split; [lia|].
    rewrite led_state_skip by discriminate. apply led_state_last.
  - negotiation_paths stk;
      rewrite !refs_held_app; cbn; (split; [lia|]);
      rewrite !led_state_skip by discriminate; apply led_state_last.
Qed.

(** ** Single slot *)

(** C1, as the code has it.  [my_conn] is one pointer, so the program tracks
    at most one connection; but a [connected] event with [err = 0] stores the
    pointer [bt_conn_ref] returns whatever [my_conn] held before.  The handler
    does not look at the old value: it takes one reference, on the connection
    it is given, and releases none, and it logs exactly what it logs when no
    connection was stored.  Both exercises. *)
Theorem C1_connected_overwrites_my_conn (K : sdk_consts) (stk : host_stack)
    (conn : conn_ptr) (w : world) :
  let w1 := exec (Exer1.connected_cb K stk conn 0) w in
  let w2 := exec (Exer2.on_connected K stk conn 0) w in
  (my_conn w1 = ref_ret stk conn /\
   (forall c, refs_held c (calls w1) =
              refs_held c (calls w) + (if conn_ptr_eqb c conn then 1 else 0)) /\
   log w1 = log w ++ log (exec (Exer1.connected_cb K stk conn 0) init_world)) /\
  (my_conn w2 = ref_ret stk conn /\
   (forall c, refs_held c (calls w2) =
              refs_held c (calls w) + (if conn_ptr_eqb c conn then 1 else 0)) /\
   log w2 = log w ++ log (exec (Exer2.on_connected K stk conn 0) init_world)).
Proof.
  cbv zeta. split; [|split; [|split]].
  - rewrite !connected_cb_ok. cbn [my_conn calls log].
    repeat split. intros c. rewrite refs_held_app. cbn. lia.
  - apply on_connected_my_conn.
  - intros c. apply (on_connected_refs_held K stk conn c w).
  - apply on_connected_log_frame.
Qed.

(** C1 as the spec states it fails: with connection 1 stored and referenced,
    a [connected] event for connection 2 puts 2 in [my_conn]; no error line
    is logged and the reference on 1 is still held. *)
Lemma C1_second_connected_not_rejected :
  let w1 := exec (Exer2.on_connected ncs nominal_stack (Some 1%nat) 0) init_world in
  let w2 := exec (Exer2.on_connected ncs nominal_stack (Some 2%nat) 0) w1 in
  my_conn w1 = Some 1%nat /\
  my_conn w2 = Some 2%nat /\
  my_conn w2 <> my_conn w1 /\
  errors (log w2) = [] /\
  refs_held (Some 1%nat) (calls w2) = 1 /\
  my_conn (exec (Exer1.connected_cb ncs nominal_stack (Some 2%nat) 0)
             (exec (Exer1.connected_cb ncs nominal_stack (Some 1%nat) 0) init_world))
    = Some 2%nat.
Proof.
  vm_compute. repeat split; try reflexivity. discriminate.
Qed.

(** ** Negotiation *)

(** A world with lines added to its log and nothing else changed. *)
Lemma phy_loop_logs_only (info : bt_conn_le_phy_info) (l : list Exer2.phy_name) :
  exists lines, forall w,
    exec (Exer2.phy_loop info l) w =
    {| my_conn := my_conn w;
       exchange_params_func := exchange_params_func w;
       calls := calls w;
       log := log w ++ lines |}.
Proof.
  induction l as [|p l [lines IH]].
  - exists []. intros [m f c lg]. cbn. now rewrite app_nil_r.
  - cbn [Exer2.phy_loop]. unfold when.
    destruct (Exer2.phy_option p =? tx_phy info);
      destruct (Exer2.phy_option p =? rx_phy info);
      eexists; intros w; cbn in IH |- *; rewrite IH; cbn;
      rewrite <- ?app_assoc; reflexivity.
Qed.

(** [on_le_phy_updated] in any world: no global written, no call made, and
    the lines logged are those it logs from [init_world]. *)
Lemma on_le_phy_updated_frame (K : sdk_consts) (conn : conn_ptr)
    (info : bt_conn_le_phy_info) (w : world) :
  let w' := exec (Exer2.on_le_phy_updated K conn info) w in
  my_conn w' = my_conn w /\
  exchange_params_func w' = exchange_params_func w /\
  calls w' = calls w /\
  log w' = log w ++ log (exec (Exer2.on_le_phy_updated K conn info) init_world).
Proof.
  cbv zeta. unfold Exer2.on_le_phy_updated.
  destruct (phy_loop_logs_only info (Exer2.phy_names K)) as [lines H].
  rewrite (H w), (H init_world). cbn. repeat split.
Qed.

Lemma exec_seq {A B} (m : M A) (k : M B) (w : world) :
  exec (m ;; k) w = exec k (exec m w).
Proof. cbn. now destruct (m w). Qed.

(** [exchange_func] in any world: it reads the MTU of the connection it is
    handed when [err] is 0 and writes no global. *)
Lemma exchange_func_frame (stk : host_stack) (conn : conn_ptr) (err : Z)
    (w : world) :
  let w' := exec (Exer2.exchange_func stk conn err) w in
  my_conn w' = my_conn w /\
  exchange_params_func w' = exchange_params_func w /\
  calls w' = calls w ++ (if err =? 0 then [Bt_gatt_get_mtu conn] else []) /\
  log w' = log w ++ log (exec (Exer2.exchange_func stk conn err) init_world).
Proof.
  cbv zeta. unfold Exer2.exchange_func, when, truthy.
  destruct (err =? 0); cbn; rewrite <- ?app_assoc, ?app_nil_r; repeat split.
Qed.



(** The requests [Exer2.on_connected] issues when it gets past both
    [return]s. *)
Lemma on_connected_requests (K : sdk_consts) (stk : host_stack)
    (conn : conn_ptr) (err : Z) (w : world) :
  Exer2.reaches_negotiation stk conn err = true ->
  negotiation_requests (calls (exec (Exer2.on_connected K stk conn err) w)) =
  negotiation_requests (calls w) ++
  [(PHY, ref_ret stk conn); (DATA_LEN, ref_ret stk conn); (MTU, ref_ret stk conn)].
Proof.
  intros H. rewrite (on_connected_calls K stk conn err w H).
  now rewrite negotiation_requests_app.
Qed.

(** C2, as the code has it.  The completion handlers [on_le_phy_updated],
    [on_le_data_length_updated] and [exchange_func] never read [my_conn]: in
    every world, whether or not the connection they are called for is the
    stored one, they leave [my_conn] and [exchange_params] as they are,
    issue no request and release nothing, and append to the log the lines
    they log from [init_world]; [exchange_func] with [err = 0] also reads
    the MTU of the connection it is handed. *)
Theorem C2_completion_handlers_ignore_my_conn (K : sdk_consts)
    (stk : host_stack) (conn : conn_ptr) (info : bt_conn_le_phy_info)
    (dinfo : bt_conn_le_data_len_info) (err : Z) (w : world) :
  let p := exec (Exer2.on_le_phy_updated K conn info) w in
  let d := exec (Exer2.on_le_data_length_updated conn dinfo) w in
  let m := exec (Exer2.exchange_func stk conn err) w in
  (my_conn p = my_conn w /\
   exchange_params_func p = exchange_params_func w /\
   calls p = calls w /\
   log p = log w ++ log (exec (Exer2.on_le_phy_updated K conn info) init_world)) /\
  (my_conn d = my_conn w /\
   exchange_params_func d = exchange_params_func w /\
   calls d = calls w /\
   log d = log w ++ log (exec (Exer2.on_le_data_length_updated conn dinfo) init_world)) /\
  (my_conn m = my_conn w /\
   exchange_params_func m = exchange_params_func w /\
   calls m = calls w ++ (if err =? 0 then [Bt_gatt_get_mtu conn] else []) /\
   log m = log w ++ log (exec (Exer2.exchange_func stk conn err) init_world)).
Proof.
  cbv zeta. split; [|split].
  - apply on_le_phy_updated_frame.
  - cbn. repeat split.
  - apply exchange_func_frame.
Qed.

(** C2 as the spec states it fails: after [connected] then [disconnected]
    for connection 1, the late [le_phy_updated] and MTU callbacks for 1 are
    not silent no-ops.  They log as for a live connection, and the MTU
    callback asks the stack for the MTU of the released connection.  The
    same holds for a callback whose handle (2) was never the stored one. *)
Lemma C2_stale_callback_not_silent :
  let w := exec (Exer2.run ncs
                   [(nominal_stack, Exer2.Ev_connected (Some 1%nat) 0);
                    (nominal_stack, Exer2.Ev_disconnected (Some 1%nat) 19)])
                init_world in
  let phy := {| tx_phy := 2; rx_phy := 2 |} in
  let p := exec (Exer2.dispatch ncs nominal_stack
                   (Exer2.Ev_le_phy_updated (Some 1%nat) phy)) w in
  let m := exec (Exer2.dispatch ncs nominal_stack
                   (Exer2.Ev_mtu_exchanged (Some 1%nat) 0)) w in
  let p2 := exec (Exer2.dispatch ncs nominal_stack
                    (Exer2.Ev_le_phy_updated (Some 2%nat) phy)) w in
  p <> w /\
  log p = log w ++
    [{| level := INF; fmt := "TX PHY updated: %s"; args := [LStr "2M PHY"] |};
     {| level := INF; fmt := "RX PHY updated: %s"; args := [LStr "2M PHY"] |}] /\
  m <> w /\
  calls m = calls w ++ [Bt_gatt_get_mtu (Some 1%nat)] /\
  log m = log w ++
    [{| level := INF; fmt := "MTU exchange %s"; args := [LStr "successful"] |};
     {| level := INF; fmt := "Negotiated MTU is %d bytes"; args := [LInt 244] |}] /\
  log p2 = log p.
Proof.
  vm_compute. repeat split; try reflexivity; discriminate.
Qed.

(** C3, as the code has it.  When [on_connected] gets past its two
    [return]s it issues all three requests itself, PHY then data length then
    MTU, in that one call; the completion handlers [on_le_phy_updated] and
    [on_le_data_length_updated] make no call, so they issue no request. *)
Theorem C3_on_connected_issues_all_requests (K : sdk_consts)
    (stk : host_stack) (conn : conn_ptr) (err : Z) (w : world)
    (conn' : conn_ptr) (info : bt_conn_le_phy_info)
    (dinfo : bt_conn_le_data_len_info) (w' : world) :
  Exer2.reaches_negotiation stk conn err = true ->
  negotiation_requests (calls (exec (Exer2.on_connected K stk conn err) w)) =
    negotiation_requests (calls w) ++
    [(PHY, ref_ret stk conn); (DATA_LEN, ref_ret stk conn);
     (MTU, ref_ret stk conn)] /\
  calls (exec (Exer2.on_le_phy_updated K conn' info) w') = calls w' /\
  calls (exec (Exer2.on_le_data_length_updated conn' dinfo) w') = calls w'.
Proof.
  intros H. split; [now apply on_connected_requests|]. split.
  - now destruct (on_le_phy_updated_frame K conn' info w') as (_ & _ & -> & _).
  - reflexivity.
Qed.

Lemma C3_on_connected_issues_all_requests_witness :
  Exer2.reaches_negotiation nominal_stack (Some 1%nat) 0 = true /\
  negotiation_requests
    (calls (exec (Exer2.on_connected ncs nominal_stack (Some 1%nat) 0) init_world)) =
    [(PHY, Some 1%nat); (DATA_LEN, Some 1%nat); (MTU, Some 1%nat)] /\
  calls (exec (Exer2.on_le_phy_updated ncs (Some 1%nat)
                 {| tx_phy := 2; rx_phy := 2 |}) init_world) = [] /\
  calls (exec (Exer2.on_le_data_length_updated (Some 1%nat)
                 {| info_tx_max_len := 251; info_tx_max_time := 2120;
                    info_rx_max_len := 251; info_rx_max_time := 2120 |})
              init_world) = [].
Proof.
  split; [reflexivity|].
  apply (C3_on_connected_issues_all_requests ncs nominal_stack (Some 1%nat) 0
           init_world (Some 1%nat) {| tx_phy := 2; rx_phy := 2 |}
           {| info_tx_max_len := 251; info_tx_max_time := 2120;
              info_rx_max_len := 251; info_rx_max_time := 2120 |}
           init_world).
  reflexivity.
Defined.

(** C3 as the spec states it fails: [on_connected] alone, before any
    completion callback is delivered, has already issued the data length and
    the MTU request; the [le_phy_updated] and [le_data_len_updated]
    callbacks that follow add no request. *)
Lemma C3_requests_not_chained :
  let w1 := exec (Exer2.on_connected ncs nominal_stack (Some 1%nat) 0) init_world in
  let w2 := exec (Exer2.dispatch ncs nominal_stack
                    (Exer2.Ev_le_phy_updated (Some 1%nat)
                       {| tx_phy := 2; rx_phy := 2 |})) w1 in
  let w3 := exec (Exer2.dispatch ncs nominal_stack
                    (Exer2.Ev_le_data_len_updated (Some 1%nat)
                       {| info_tx_max_len := 251; info_tx_max_time := 2120;
                          info_rx_max_len := 251; info_rx_max_time := 2120 |})) w2 in
  negotiation_requests (calls w1) =
    [(PHY, Some 1%nat); (DATA_LEN, Some 1%nat); (MTU, Some 1%nat)] /\
  negotiation_requests (calls w2) = negotiation_requests (calls w1) /\
  negotiation_requests (calls w3) = negotiation_requests (calls w1).
Proof.
  vm_compute. repeat split.
Qed.





(** ** Disconnection *)

(** What the two disconnected handlers do, in any world and for any handle
    and reason. *)
Lemma on_disconnected_spec (K : sdk_consts) (conn : conn_ptr) (reason : Z)
    (w : world) :
  exec (Exer2.on_disconnected K conn reason) w =
  {| my_conn := my_conn w;
     exchange_params_func := exchange_params_func w;
     calls := calls w ++ [Dk_set_led (DK_LED2 K) 0; Bt_conn_unref (my_conn w)];
     log := log w ++ [{| level := INF; fmt := "Disconnected. Reason %d";
                         args := [LInt reason] |}] |}.
Proof.
  unfold Exer2.on_disconnected. cbn. now rewrite <- app_assoc.
Qed.

Lemma disconnected_cb_spec (K : sdk_consts) (conn : conn_ptr) (reason : Z)
    (w : world) :
  exec (Exer1.disconnected_cb K conn reason) w =
  {| my_conn := my_conn w;
     exchange_params_func := exchange_params_func w;
     calls := calls w ++ [Bt_conn_unref (my_conn w); Dk_set_led (DK_LED2 K) 0];
     log := log w ++ [{| level := INF; fmt := "Disconnected (reason %u)";
                         args := [LInt reason] |}] |}.
Proof.
  unfold Exer1.disconnected_cb. cbn. now rewrite <- app_assoc.
Qed.

(** C5, as the code has it.  Take a [connected] event with [err = 0], on a
    stack whose [bt_conn_ref] returns its argument, followed by
    [disconnected] for the same handle.  The reference taken at connect has
    been given back (the count of references held on the connection is what
    it was before), the connection status LED was last written 0, and
    [my_conn] still holds the pointer of the released connection: it is not
    reset to [NULL].  A later [connected] event with [err = 0] stores the
    connection it brings, so the slot is reusable.  Both exercises. *)
Theorem C5_disconnect_releases_but_keeps_pointer (K : sdk_consts)
    (stk : host_stack) (conn : conn_ptr) (reason : Z)
    (stk' : host_stack) (conn' : conn_ptr) (w : world) :
  ref_ret stk conn = conn ->
  let w1 := exec (Exer2.on_connected K stk conn 0) w in
  let w2 := exec (Exer2.on_disconnected K conn reason) w1 in
  let v1 := exec (Exer1.connected_cb K stk conn 0) w in
  let v2 := exec (Exer1.disconnected_cb K conn reason) v1 in
  (refs_held conn (calls w1) = refs_held conn (calls w) + 1 /\
   my_conn w2 = conn /\
   refs_held conn (calls w2) = refs_held conn (calls w) /\
   led_state (DK_LED2 K) (calls w2) = Some 0 /\
   my_conn (exec (Exer2.on_connected K stk' conn' 0) w2) = ref_ret stk' conn') /\
  (refs_held conn (calls v1) = refs_held conn (calls w) + 1 /\
   my_conn v2 = conn /\
   refs_held conn (calls v2) = refs_held conn (calls w) /\
   led_state (DK_LED2 K) (calls v2) = Some 0 /\
   my_conn (exec (Exer1.connected_cb K stk' conn' 0) v2) = ref_ret stk' conn').
Proof.
  intros Href. cbv zeta. split.
  - rewrite on_disconnected_spec. cbn [my_conn calls].
    destruct (on_connected_refs_held K stk conn conn w) as [Hr _].
    cbv zeta in Hr. rewrite conn_ptr_eqb_refl in Hr.
    rewrite !on_connected_my_conn, Href, refs_held_app, Hr.
    cbn [refs_held]. rewrite conn_ptr_eqb_refl.
    repeat split; try lia.
    change [Dk_set_led (DK_LED2 K) 0; Bt_conn_unref conn]
      with ([Dk_set_led (DK_LED2 K) 0] ++ [Bt_conn_unref conn]).
    rewrite app_assoc, led_state_skip by discriminate.
    apply led_state_last.
  - rewrite disconnected_cb_spec, !connected_cb_ok. cbn [my_conn calls].
    rewrite Href, !refs_held_app. cbn [refs_held].
    rewrite conn_ptr_eqb_refl.
    repeat split; try lia.
    change [Bt_conn_unref conn; Dk_set_led (DK_LED2 K) 0]
      with ([Bt_conn_unref conn] ++ [Dk_set_led (DK_LED2 K) 0]).
    rewrite app_assoc. apply led_state_last.
Qed.

Lemma C5_disconnect_releases_but_keeps_pointer_witness :
  ref_ret nominal_stack (Some 1%nat) = Some 1%nat /\
  let w1 := exec (Exer2.on_connected ncs nominal_stack (Some 1%nat) 0) init_world in
  let w2 := exec (Exer2.on_disconnected ncs (Some 1%nat) 19) w1 in
  let v1 := exec (Exer1.connected_cb ncs nominal_stack (Some 1%nat) 0) init_world in
  let v2 := exec (Exer1.disconnected_cb ncs (Some 1%nat) 19) v1 in
  (refs_held (Some 1%nat) (calls w1) = 1 /\
   my_conn w2 = Some 1%nat /\
   refs_held (Some 1%nat) (calls w2) = 0 /\
   led_state 1 (calls w2) = Some 0 /\
   my_conn (exec (Exer2.on_connected ncs nominal_stack (Some 2%nat) 0) w2) =
     Some 2%nat) /\
  (refs_held (Some 1%nat) (calls v1) = 1 /\
   my_conn v2 = Some 1%nat /\
   refs_held (Some 1%nat) (calls v2) = 0 /\
   led_state 1 (calls v2) = Some 0 /\
   my_conn (exec (Exer1.connected_cb ncs nominal_stack (Some 2%nat) 0) v2) =
     Some 2%nat).
Proof.
  split; [reflexivity|].
  apply (C5_disconnect_releases_but_keeps_pointer ncs nominal_stack
           (Some 1%nat) 19 nominal_stack (Some 2%nat) init_world).
  reflexivity.
Defined.

(** C5 as the spec states it fails: after [connected] then [disconnected]
    for connection 1, [my_conn] is not [NULL], in either exercise. *)
Lemma C5_my_conn_not_cleared :
  my_conn (exec (Exer2.run ncs
                   [(nominal_stack, Exer2.Ev_connected (Some 1%nat) 0);
                    (nominal_stack, Exer2.Ev_disconnected (Some 1%nat) 19)])
                init_world) = Some 1%nat /\
  my_conn (exec (Exer1.connected_cb ncs nominal_stack (Some 1%nat) 0 ;;
                 Exer1.disconnected_cb ncs (Some 1%nat) 19) init_world)
    = Some 1%nat /\
  Some 1%nat <> (None : conn_ptr).
Proof.
  vm_compute. repeat split. discriminate.
Qed.

(** C6, as the code has it.  The disconnected handlers do not look at the
    handle they are given: for every handle, matching [my_conn] or not, they
    log the disconnection at [INF] level, write 0 to the connection status
    LED and call [bt_conn_unref] on [my_conn], which itself keeps its value;
    nothing is reported as an error.  Both exercises. *)
Theorem C6_disconnected_ignores_handle (K : sdk_consts)
    (conn : conn_ptr) (reason : Z) (w : world) :
  exec (Exer2.on_disconnected K conn reason) w =
    {| my_conn := my_conn w;
       exchange_params_func := exchange_params_func w;
       calls := calls w ++ [Dk_set_led (DK_LED2 K) 0; Bt_conn_unref (my_conn w)];
       log := log w ++ [{| level := INF; fmt := "Disconnected. Reason %d";
                           args := [LInt reason] |}] |} /\
  exec (Exer1.disconnected_cb K conn reason) w =
    {| my_conn := my_conn w;
       exchange_params_func := exchange_params_func w;
       calls := calls w ++ [Bt_conn_unref (my_conn w); Dk_set_led (DK_LED2 K) 0];
       log := log w ++ [{| level := INF; fmt := "Disconnected (reason %u)";
                           args := [LInt reason] |}] |}.
Proof.
  split; [apply on_disconnected_spec | apply disconnected_cb_spec].
Qed.

(** C6 as the spec states it fails: with connection 1 stored, a
    [disconnected] event for the unknown handle 2 releases the reference on
    1 and turns the LED off, and logs no error. *)
Lemma C6_unknown_handle_releases_tracked :
  let w1 := exec (Exer2.on_connected ncs nominal_stack (Some 1%nat) 0) init_world in
  let w2 := exec (Exer2.on_disconnected ncs (Some 2%nat) 19) w1 in
  my_conn w1 = Some 1%nat /\
  refs_held (Some 1%nat) (calls w1) = 1 /\
  refs_held (Some 1%nat) (calls w2) = 0 /\
  calls w2 = calls w1 ++ [Dk_set_led 1 0; Bt_conn_unref (Some 1%nat)] /\
  errors (log w2) = [] /\
  w2 <> w1 /\
  calls (exec (Exer1.disconnected_cb ncs (Some 2%nat) 19)
           (exec (Exer1.connected_cb ncs nominal_stack (Some 1%nat) 0) init_world))
    = [Bt_conn_ref (Some 1%nat); Dk_set_led 1 1;
       Bt_conn_unref (Some 1%nat); Dk_set_led 1 0].
Proof.
  vm_compute. repeat split. discriminate.
Qed.

(** ** Button notifications *)

(** C7, as the code has it.  The button handlers do not look at [my_conn].
    Whenever the [USER_BUTTON] bit of [has_changed] is set they log the
    change, call [bt_lbs_send_button_state] with the truth value of
    [button_state], whether a connection is stored or not, and log an error
    line exactly when that call returns non-zero; nothing else changes.
    When the bit is clear they do nothing: the world is left as it is.  They
    return nothing.  Both exercises. *)
Theorem C7_button_send_not_gated (K : sdk_consts) (stk : host_stack)
    (button_state has_changed : Z) (w : world) :
  let changed := truthy (Z.land has_changed (DK_BTN1_MSK K)) in
  let sent := truthy button_state in
  let ret_val := send_button_state_ret stk sent in
  exec (Exer2.button_changed K stk button_state has_changed) w =
    (if changed then
       {| my_conn := my_conn w;
          exchange_params_func := exchange_params_func w;
          calls := calls w ++ [Bt_lbs_send_button_state sent];
          log := log w ++
            {| level := INF; fmt := "Button changed"; args := [] |} ::
            (if truthy ret_val
             then [{| level := ERR; fmt := "Couldn't send notification. err: %d";
                      args := [LInt ret_val] |}]
             else []) |}
     else w) /\
  exec (Exer1.button_handler K stk button_state has_changed) w =
    (if changed then
       {| my_conn := my_conn w;
          exchange_params_func := exchange_params_func w;
          calls := calls w ++ [Bt_lbs_send_button_state sent];
          log := log w ++
            {| level := INF; fmt := "Button state changed to 0x%08x";
               args := [LInt button_state] |} ::
            (if truthy ret_val
             then [{| level := ERR;
                      fmt := "Failed to send button state, error code: %d";
                      args := [LInt ret_val] |}]
             else []) |}
     else w).
Proof.
  cbv zeta.
  unfold Exer2.button_changed, Exer1.button_handler,
    Exer2.USER_BUTTON, Exer1.USER_BUTTON, when.
  destruct (truthy (Z.land has_changed (DK_BTN1_MSK K))); cbn;
    [|split; reflexivity].
  destruct (truthy (send_button_state_ret stk (truthy button_state))); cbn;
    rewrite <- ?app_assoc; split; reflexivity.
Qed.

(** C7 as the spec states it fails: from the initial world, where [my_conn]
    is [NULL], a change of button 1 makes the handler attempt the send. *)
Lemma C7_send_attempted_without_connection :
  my_conn init_world = None /\
  notification_sends
    (calls (exec (Exer2.button_changed ncs nominal_stack 1 1) init_world)) = [true] /\
  notification_sends
    (calls (exec (Exer1.button_handler ncs nominal_stack 1 1) init_world)) = [true] /\
  errors (log (exec (Exer2.button_changed ncs nominal_stack 1 1) init_world)) = [].
Proof.
  vm_compute. repeat split.
Qed.

(** ** MTU accounting *)

(** C8.  On a successful MTU exchange ([err = 0]) [exchange_func] reports,
    in its second log line, the ATT MTU the stack gives for the connection
    minus 3. *)
Theorem C8_reported_payload_is_mtu_minus_3 (stk : host_stack)
    (conn : conn_ptr) (err mtu : Z) (w : world) :
  err = 0 ->
  get_mtu_ret stk conn = mtu ->
  log (exec (Exer2.exchange_func stk conn err) w) =
  log w ++
  [{| level := INF; fmt := "MTU exchange %s"; args := [LStr "successful"] |};
   {| level := INF; fmt := "Negotiated MTU is %d bytes";
      args := [LInt (mtu - 3)] |}].
Proof.
  intros -> <-. unfold Exer2.exchange_func, when. rewrite truthy_0. cbn.
  now rewrite <- app_assoc.
Qed.

(** With a negotiated MTU of 247 the line reports 244. *)
Lemma C8_reported_payload_is_mtu_minus_3_witness :
  get_mtu_ret nominal_stack (Some 1%nat) = 247 /\
  log (exec (Exer2.exchange_func nominal_stack (Some 1%nat) 0) init_world) =
  [{| level := INF; fmt := "MTU exchange %s"; args := [LStr "successful"] |};
   {| level := INF; fmt := "Negotiated MTU is %d bytes";
      args := [LInt 244] |}].
Proof.
  split; [reflexivity|].
  apply (C8_reported_payload_is_mtu_minus_3 nominal_stack (Some 1%nat) 0 247
           init_world); reflexivity.
Defined.

(** ** Failures *)

(** C9.  When [on_connected] gets past its two [return]s, the calls it makes
    are the same whatever the PHY and the data length request return: both
    following requests are issued.  A non-zero return of the PHY request, or
    of the data length request, is logged as an error.  The connection stays
    as it was set up: [my_conn] holds the referenced connection and no
    [bt_conn_unref] follows the [bt_conn_ref]. *)
Theorem C9_request_failure_not_fatal (K : sdk_consts) (stk : host_stack)
    (conn : conn_ptr) (err : Z) (w : world) :
  Exer2.reaches_negotiation stk conn err = true ->
  let c := ref_ret stk conn in
  let phy_err := phy_update_ret stk c (Exer2.phy_param K) in
  let len_err := data_len_update_ret stk c (Exer2.data_len_param K) in
  let w' := exec (Exer2.on_connected K stk conn err) w in
  calls w' =
    calls w ++
    [Bt_conn_ref conn;
     Dk_set_led (DK_LED2 K) 1;
     Bt_conn_get_info c;
     Bt_conn_le_phy_update c (Exer2.phy_param K);
     Bt_conn_le_data_len_update c (Exer2.data_len_param K);
     Bt_gatt_exchange_mtu c (Some Cb_exchange_func)] /\
  (phy_err <> 0 ->
   In {| level := ERR; fmt := "PHY update failed (err %d)";
         args := [LInt phy_err] |} (log w')) /\
  (len_err <> 0 ->
   In {| level := ERR; fmt := "Data length update failed (err %d)";
         args := [LInt len_err] |} (log w')) /\
  my_conn w' = c.
Proof.
  intros H. cbv zeta. split; [now apply on_connected_calls|].
  unfold Exer2.reaches_negotiation in H.
  apply andb_prop in H as [He Hi]. apply negb_true_iff in He, Hi.
  assert (E : err = 0) by now apply truthy_false_iff. subst err.
  split; [|split; [|apply on_connected_my_conn]].
  - intros Hp. apply truthy_true_iff in Hp.
    unfold Exer2.on_connected. rewrite truthy_0; cbn. rewrite Hi; cbn.
    unfold Exer2.update_phy, Exer2.update_data_length, Exer2.update_mtu; cbn.
    rewrite Hp; cbn.
    destruct (truthy (data_len_update_ret stk _ _)); cbn;
      destruct (truthy (exchange_mtu_ret stk _)); cbn;
      rewrite !in_app_iff; cbn; tauto.
  - intros Hl. apply truthy_true_iff in Hl.
    unfold Exer2.on_connected. rewrite truthy_0; cbn. rewrite Hi; cbn.
    unfold Exer2.update_phy, Exer2.update_data_length, Exer2.update_mtu; cbn.
    destruct (truthy (phy_update_ret stk _ _)); cbn; rewrite Hl; cbn;
      destruct (truthy (exchange_mtu_ret stk _)); cbn;
      rewrite !in_app_iff; cbn; tauto.
Qed.

Lemma C9_request_failure_not_fatal_witness :
  Exer2.reaches_negotiation refusing_stack (Some 1%nat) 0 = true /\
  let w' := exec (Exer2.on_connected ncs refusing_stack (Some 1%nat) 0) init_world in
  calls w' =
    [Bt_conn_ref (Some 1%nat);
     Dk_set_led 1 1;
     Bt_conn_get_info (Some 1%nat);
     Bt_conn_le_phy_update (Some 1%nat) (Exer2.phy_param ncs);
     Bt_conn_le_data_len_update (Some 1%nat) (Exer2.data_len_param ncs);
     Bt_gatt_exchange_mtu (Some 1%nat) (Some Cb_exchange_func)] /\
  In {| level := ERR; fmt := "PHY update failed (err %d)";
        args := [LInt (-5)] |} (log w') /\
  In {| level := ERR; fmt := "Data length update failed (err %d)";
        args := [LInt (-22)] |} (log w') /\
  my_conn w' = Some 1%nat.
Proof.
  split; [reflexivity|].
  destruct (C9_request_failure_not_fatal ncs refusing_stack (Some 1%nat) 0
              init_world eq_refl) as (Hc & Hp & Hl & Hm).
  split; [exact Hc|]. split; [apply Hp; discriminate|].
  split; [apply Hl; discriminate | exact Hm].
Defined.

(** C10.  A [connected] event with a non-zero [err] only adds one error
    line to the log: [my_conn] and [exchange_params] keep their values and no
    call is made, so no reference is taken, the LED is not written and no
    request is issued.  Both exercises. *)
Theorem C10_failed_connected_only_logs (K : sdk_consts) (stk : host_stack)
    (conn : conn_ptr) (err : Z) (w : world) :
  err <> 0 ->
  exec (Exer2.on_connected K stk conn err) w =
    {| my_conn := my_conn w;
       exchange_params_func := exchange_params_func w;
       calls := calls w;
       log := log w ++ [{| level := ERR; fmt := "Connection error %d";
                           args := [LInt err] |}] |} /\
  exec (Exer1.connected_cb K stk conn err) w =
    {| my_conn := my_conn w;
       exchange_params_func := exchange_params_func w;
       calls := calls w;
       log := log w ++ [{| level := ERR; fmt := "Connection failed (err %u)";
                           args := [LInt err] |}] |}.
Proof.
  intros H. apply truthy_true_iff in H.
  unfold Exer2.on_connected, Exer1.connected_cb. rewrite H. cbn. split; reflexivity.
Qed.

Lemma C10_failed_connected_only_logs_witness :
  62 <> 0 /\
  exec (Exer2.on_connected ncs nominal_stack (Some 1%nat) 62) init_world =
    {| my_conn := None;
       exchange_params_func := None;
       calls := [];
       log := [{| level := ERR; fmt := "Connection error %d";
                  args := [LInt 62] |}] |} /\
  exec (Exer1.connected_cb ncs nominal_stack (Some 1%nat) 62) init_world =
    {| my_conn := None;
       exchange_params_func := None;
       calls := [];
       log := [{| level := ERR; fmt := "Connection failed (err %u)";
                  args := [LInt 62] |}] |}.
Proof.
  split; [discriminate|].
  apply (C10_failed_connected_only_logs ncs nominal_stack (Some 1%nat) 62
           init_world); discriminate.
Defined.

(** ** Two runs, end to end *)

(** Connect, then the three completions in the nominal order: six calls, the
    last line reports 244. *)
Example run_nominal :
  let w := exec (Exer2.run ncs
                   [(nominal_stack, Exer2.Ev_connected (Some 1%nat) 0);
                    (nominal_stack, Exer2.Ev_le_phy_updated (Some 1%nat)
                                      {| tx_phy := 2; rx_phy := 2 |});
                    (nominal_stack, Exer2.Ev_le_data_len_updated (Some 1%nat)
                                      {| info_tx_max_len := 251;
                                         info_tx_max_time := 2120;
                                         info_rx_max_len := 251;
                                         info_rx_max_time := 2120 |});
                    (nominal_stack, Exer2.Ev_mtu_exchanged (Some 1%nat) 0)])
                init_world in
  my_conn w = Some 1%nat /\
  negotiation_requests (calls w) =
    [(PHY, Some 1%nat); (DATA_LEN, Some 1%nat); (MTU, Some 1%nat)] /\
  led_state 1 (calls w) = Some 1 /\
  errors (log w) = [] /\
  hd_error (rev (log w)) =
    Some {| level := INF; fmt := "Negotiated MTU is %d bytes"; args := [LInt 244] |}.
Proof. vm_compute. repeat split. Qed.

(** A [bt_conn_get_info] that returns [-EINVAL]: the connection is stored and
    the LED lit, 234 is logged, no request is issued. *)
Example run_get_info_fails :
  let stk := {| ref_ret := fun c => c;
                get_info_ret := fun _ => (-22, snd (get_info_ret nominal_stack None));
                phy_update_ret := fun _ _ => 0;
                data_len_update_ret := fun _ _ => 0;
                exchange_mtu_ret := fun _ => 0;
                get_mtu_ret := fun _ => 247;
                send_button_state_ret := fun _ => 0 |} in
  let w := exec (Exer2.on_connected ncs stk (Some 1%nat) 0) init_world in
  Exer2.reaches_negotiation stk (Some 1%nat) 0 = false /\
  my_conn w = Some 1%nat /\
  calls w = [Bt_conn_ref (Some 1%nat); Dk_set_led 1 1; Bt_conn_get_info (Some 1%nat)] /\
  errors (log w) =
    [{| level := ERR; fmt := "Cannot get connection info, err %d";
        args := [LInt 234] |}].
Proof. vm_compute. repeat split. Qed.

(** * Further properties of the callbacks *)

(** ** One event *)

Lemma led_state_app (led : Z) (l1 l2 : list call) :
  led_state led (l1 ++ l2) =
  match led_state led l2 with
  | Some v => Some v
  | None => led_state led l1
  end.
Proof.
  induction l1 as [|x l1 IH]; cbn.
  - now destruct (led_state led l2).
  - destruct x; try exact IH. rewrite IH.
    destruct (led_state led l2); [reflexivity|].
    now destruct (led_state led l1).
Qed.

Lemma on_connected_failed (K : sdk_consts) (stk : host_stack)
    (conn : conn_ptr) (err : Z) (w : world) :
  truthy err = true ->
  my_conn (exec (Exer2.on_connected K stk conn err) w) = my_conn w /\
  calls (exec (Exer2.on_connected K stk conn err) w) = calls w.
Proof.
  intros H. unfold Exer2.on_connected. rewrite H. cbn. now split.
Qed.

Lemma on_connected_calls_early (K : sdk_consts) (stk : host_stack)
    (conn : conn_ptr) (w : world) :
  truthy (to_uint8 (fst (get_info_ret stk (ref_ret stk conn)))) = true ->
  calls (exec (Exer2.on_connected K stk conn 0) w) =
  calls w ++
  [Bt_conn_ref conn; Dk_set_led (DK_LED2 K) 1;
   Bt_conn_get_info (ref_ret stk conn)].
Proof.
  intros H. unfold Exer2.on_connected. rewrite truthy_0. cbn. rewrite H. cbn.
  now rewrite <- !app_assoc.
Qed.

Lemma button_changed_effect (K : sdk_consts) (stk : host_stack)
    (button_state has_changed : Z) (w : world) :
  let w' := exec (Exer2.button_changed K stk button_state has_changed) w in
  my_conn w' = my_conn w /\
  calls w' = calls w ++
    (if truthy (Z.land has_changed (DK_BTN1_MSK K))
     then [Bt_lbs_send_button_state (truthy button_state)] else []).
Proof.
  cbv zeta. unfold Exer2.button_changed, Exer2.USER_BUTTON, when.
  destruct (truthy (Z.land has_changed (DK_BTN1_MSK K))); cbn;
    [|now rewrite app_nil_r].
  destruct (truthy (send_button_state_ret stk (truthy button_state))); cbn;
    now split.
Qed.

(** What one dispatched callback of exercise 2 adds to the call record, seen
    through each view, and what it leaves in [my_conn]. *)
Lemma dispatch_effect (K : sdk_consts) (stk : host_stack) (e : Exer2.event)
    (w : world) :
  exists d,
    calls (exec (Exer2.dispatch K stk e) w) = calls w ++ d /\
    my_conn (exec (Exer2.dispatch K stk e) w) =
      tracked_after [(stk, e)] (my_conn w) /\
    led_state (DK_LED2 K) d = link_led_after [(stk, e)] None /\
    negotiation_requests d = requests_of_run [(stk, e)] /\
    notification_sends d = sends_of_run K [(stk, e)] /\
    List.length (filter is_ref d) = (if is_connected_ok (stk, e) then 1 else 0)%nat /\
    List.length (filter is_unref d) = (if is_disconnected (stk, e) then 1 else 0)%nat /\
    forall c, refs_held c d =
      match e with
      | Exer2.Ev_connected conn err =>
          if truthy err then 0 else if conn_ptr_eqb c conn then 1 else 0
      | Exer2.Ev_disconnected _ _ =>
          if conn_ptr_eqb c (my_conn w) then -1 else 0
      | _ => 0
      end.
Proof.
  destruct e as [conn err|conn reason|conn i l t|conn info|conn info|conn err|s c];
    cbn [Exer2.dispatch tracked_after link_led_after requests_of_run
         sends_of_run is_connected_ok is_disconnected snd].
  - unfold Exer2.reaches_negotiation.
    destruct (truthy err) eqn:He.
    + exists []. destruct (on_connected_failed K stk conn err w He) as [Hm Hc].
      rewrite Hm, Hc, app_nil_r. cbn. repeat split.
    + apply truthy_false_iff in He. subst err.
      rewrite on_connected_my_conn. cbn [negb andb].
      destruct (truthy (to_uint8 _)) eqn:Hi.
      * eexists. split; [now apply on_connected_calls_early|].
        cbn. rewrite Z.eqb_refl. repeat split. intros c0. lia.
      * eexists. split.
        { apply on_connected_calls. unfold Exer2.reaches_negotiation.
          now rewrite truthy_0, Hi. }
        cbn. rewrite Z.eqb_refl. repeat split. intros c0. lia.
  - rewrite on_disconnected_spec. cbn [my_conn calls]. eexists.
    split; [reflexivity|]. cbn. rewrite Z.eqb_refl. repeat split.
    intros c0. lia.
  - exists []. cbn. rewrite app_nil_r. repeat split.
  - exists [].
    destruct (on_le_phy_updated_frame K conn info w) as (Hm & _ & Hc & _).
    rewrite Hm, Hc, app_nil_r. cbn. repeat split.
  - exists []. cbn. rewrite app_nil_r. repeat split.
  - cbn [exec bind get_exchange_params_func].
    destruct (exchange_params_func w) as [[]|].
    + destruct (exchange_func_frame stk conn err w) as (Hm & _ & Hc & _).
      cbn [exec] in Hm, Hc. rewrite Hm, Hc. eexists. split; [reflexivity|].
      destruct (err =? 0); cbn; repeat split.
    + exists []. cbn. rewrite app_nil_r. repeat split.
  - destruct (button_changed_effect K stk s c w) as (Hm & Hc).
    rewrite Hm, Hc. eexists. split; [reflexivity|].
    destruct (truthy (Z.land c (DK_BTN1_MSK K))); cbn; repeat split.
Qed.

(** ** Any run of callbacks *)

Lemma tracked_after_cons (x : host_stack * Exer2.event)
    (evs : list (host_stack * Exer2.event)) (c0 : conn_ptr) :
  tracked_after (x :: evs) c0 = tracked_after evs (tracked_after [x] c0).
Proof. destruct x as [stk []]; reflexivity. Qed.

Lemma link_led_after_cons (x : host_stack * Exer2.event)
    (evs : list (host_stack * Exer2.event)) (v0 : option Z) :
  link_led_after (x :: evs) v0 =
  link_led_after evs
    match link_led_after [x] None with
    | Some v => Some v
    | None => v0
    end.
Proof.
  destruct x as [stk []]; cbn; try reflexivity. now destruct (truthy err).
Qed.

Lemma requests_of_run_cons (x : host_stack * Exer2.event)
    (evs : list (host_stack * Exer2.event)) :
  requests_of_run (x :: evs) = requests_of_run [x] ++ requests_of_run evs.
Proof.
  destruct x as [stk []]; cbn; try reflexivity. now rewrite app_nil_r.
Qed.

Lemma sends_of_run_cons (K : sdk_consts) (x : host_stack * Exer2.event)
    (evs : list (host_stack * Exer2.event)) :
  sends_of_run K (x :: evs) = sends_of_run K [x] ++ sends_of_run K evs.
Proof.
  destruct x as [stk []]; cbn; try reflexivity. now rewrite app_nil_r.
Qed.

Lemma exec_run_cons (K : sdk_consts) (stk : host_stack) (e : Exer2.event)
    (evs : list (host_stack * Exer2.event)) (w : world) :
  exec (Exer2.run K ((stk, e) :: evs)) w =
  exec (Exer2.run K evs) (exec (Exer2.dispatch K stk e) w).
Proof. cbn [Exer2.run]. apply exec_seq. Qed.

(** X1.  In every run of callbacks, whatever the events and the answers of
    the stack, the negotiation requests issued are those of the [connected]
    events that get [on_connected] past its [return]s, three for each, in the
    order of the events.  No other callback issues one: not a completion, not
    [le_param_updated], not [disconnected], not a button change. *)
Theorem X1_requests_only_from_connected (K : sdk_consts)
    (evs : list (host_stack * Exer2.event)) (w : world) :
  negotiation_requests (calls (exec (Exer2.run K evs) w)) =
  negotiation_requests (calls w) ++ requests_of_run evs.
Proof.
  revert w. induction evs as [|[stk e] evs IH]; intros w.
  - cbn. now rewrite app_nil_r.
  - rewrite exec_run_cons, IH, requests_of_run_cons.
    destruct (dispatch_effect K stk e w) as (d & Hc & _ & _ & Hr & _).
    now rewrite Hc, negotiation_requests_app, Hr, app_assoc.
Qed.

Lemma my_conn_after_run (K : sdk_consts)
    (evs : list (host_stack * Exer2.event)) (w : world) :
  my_conn (exec (Exer2.run K evs) w) = tracked_after evs (my_conn w).
Proof.
  revert w. induction evs as [|[stk e] evs IH]; intros w.
  - reflexivity.
  - rewrite exec_run_cons, IH, tracked_after_cons.
    destruct (dispatch_effect K stk e w) as (d & _ & Hm & _).
    now rewrite Hm.
Qed.

(** X2.  In every run, [my_conn] ends as the pointer [bt_conn_ref] returned
    for the last [connected] event without error, and as it was when there
    is none: no other callback writes it, [disconnected] included. *)
Theorem X2_my_conn_follows_last_connected (K : sdk_consts)
    (evs : list (host_stack * Exer2.event)) (w : world) :
  my_conn (exec (Exer2.run K evs) w) = tracked_after evs (my_conn w).
Proof.
  apply my_conn_after_run.
Qed.

(** X3.  In every run, the value last written to the connection status LED
    is 1 when the last link event was a [connected] without error, 0 when it
    was a [disconnected], and what it was when there is no link event: the
    LED follows the link, and only the link. *)
Theorem X3_status_led_follows_link (K : sdk_consts)
    (evs : list (host_stack * Exer2.event)) (w : world) :
  led_state (DK_LED2 K) (calls (exec (Exer2.run K evs) w)) =
  link_led_after evs (led_state (DK_LED2 K) (calls w)).
Proof.
  revert w. induction evs as [|[stk e] evs IH]; intros w.
  - reflexivity.
  - rewrite exec_run_cons, IH, link_led_after_cons.
    destruct (dispatch_effect K stk e w) as (d & Hc & _ & Hl & _).
    now rewrite Hc, led_state_app, Hl.
Qed.

(** X4.  In every run, one notification is attempted for each button event
    whose changed buttons include [USER_BUTTON], in the order of the events:
    nothing is queued, merged or retried, whatever earlier sends returned and
    whatever happened to the link in between. *)
Theorem X4_one_send_per_button_change (K : sdk_consts)
    (evs : list (host_stack * Exer2.event)) (w : world) :
  notification_sends (calls (exec (Exer2.run K evs) w)) =
  notification_sends (calls w) ++ sends_of_run K evs.
Proof.
  revert w. induction evs as [|[stk e] evs IH]; intros w.
  - cbn. now rewrite app_nil_r.
  - rewrite exec_run_cons, IH, sends_of_run_cons.
    destruct (dispatch_effect K stk e w) as (d & Hc & _ & _ & _ & Hs & _).
    now rewrite Hc, notification_sends_app, Hs, app_assoc.
Qed.

Lemma ref_counts_after_run (K : sdk_consts)
    (evs : list (host_stack * Exer2.event)) (w : world) :
  let w' := exec (Exer2.run K evs) w in
  List.length (filter is_ref (calls w')) =
    (List.length (filter is_ref (calls w)) +
     List.length (filter is_connected_ok evs))%nat /\
  List.length (filter is_unref (calls w')) =
    (List.length (filter is_unref (calls w)) +
     List.length (filter is_disconnected evs))%nat.
Proof.
  cbv zeta. revert w. induction evs as [|[stk e] evs IH]; intros w.
  - cbn. now rewrite !Nat.add_0_r.
  - rewrite exec_run_cons.
    destruct (IH (exec (Exer2.dispatch K stk e) w)) as [IHr IHu].
    rewrite IHr, IHu.
    destruct (dispatch_effect K stk e w) as (d & Hc & _ & _ & _ & _ & Hr & Hu & _).
    rewrite Hc, !filter_app, !length_app, Hr, Hu. cbn [filter].
    destruct (is_connected_ok (stk, e)), (is_disconnected (stk, e));
      cbn [List.length]; lia.
Qed.

(** X5.  In every run, [bt_conn_ref] is called once for each [connected]
    event without error and [bt_conn_unref] once for each [disconnected]
    event, and by nothing else: references balance exactly when these events
    do. *)
Theorem X5_ref_and_unref_counts (K : sdk_consts)
    (evs : list (host_stack * Exer2.event)) (w : world) :
  let w' := exec (Exer2.run K evs) w in
  List.length (filter is_ref (calls w')) =
    (List.length (filter is_ref (calls w)) +
     List.length (filter is_connected_ok evs))%nat /\
  List.length (filter is_unref (calls w')) =
    (List.length (filter is_unref (calls w)) +
     List.length (filter is_disconnected evs))%nat.
Proof.
  apply ref_counts_after_run.
Qed.

Lemma last_cons_default {A} (l : list A) (x d : A) :
  last (x :: l) d = last l x.
Proof.
  revert x d. induction l as [|y l IH]; intros x d; [reflexivity|].
  change (last (x :: y :: l) d) with (last (y :: l) d).
  now rewrite !IH.
Qed.

(** X6.  On a stack whose [bt_conn_ref] returns its argument, any number of
    connections made and lost one after the other leaves, for every
    connection, as many references held as before: nothing leaks and
    nothing is released twice.  [my_conn] ends as the last connection made. *)
Theorem X6_connect_disconnect_cycles_balance (K : sdk_consts)
    (stk : host_stack) (l : list (conn_ptr * Z)) (w : world) :
  (forall c, ref_ret stk c = c) ->
  let w' := exec (Exer2.run K (cycles stk l)) w in
  (forall c, refs_held c (calls w') = refs_held c (calls w)) /\
  my_conn w' = last (map fst l) (my_conn w).
Proof.
  intros Href. cbv zeta. revert w.
  induction l as [|[conn reason] l IH]; intros w.
  - now split.
  - cbn [cycles]. rewrite !exec_run_cons.
    destruct (dispatch_effect K stk (Exer2.Ev_connected conn 0) w)
      as (d1 & Hc1 & Hm1 & _ & _ & _ & _ & _ & Hr1).
    cbn [tracked_after] in Hm1. rewrite truthy_0 in Hm1, Hr1.
    rewrite Href in Hm1.
    set (w1 := exec (Exer2.dispatch K stk (Exer2.Ev_connected conn 0)) w) in *.
    destruct (dispatch_effect K stk (Exer2.Ev_disconnected conn reason) w1)
      as (d2 & Hc2 & Hm2 & _ & _ & _ & _ & _ & Hr2).
    cbn [tracked_after] in Hm2. rewrite Hm1 in Hm2, Hr2.
    set (w2 := exec (Exer2.dispatch K stk (Exer2.Ev_disconnected conn reason)) w1) in *.
    destruct (IH w2) as [IHr IHm]. split.
    + intros c. rewrite IHr, Hc2, Hc1, !refs_held_app, Hr1, Hr2.
      destruct (conn_ptr_eqb c conn); lia.
    + rewrite IHm, Hm2. cbn [map fst]. now rewrite last_cons_default.
Qed.

Lemma X6_connect_disconnect_cycles_balance_witness :
  (forall c, ref_ret nominal_stack c = c) /\
  let w' := exec (Exer2.run ncs
                    (cycles nominal_stack [(Some 1%nat, 19); (Some 2%nat, 8)]))
                 init_world in
  (forall c, refs_held c (calls w') = 0) /\
  my_conn w' = Some 2%nat.
Proof.
  split; [reflexivity|].
  apply (X6_connect_disconnect_cycles_balance ncs nominal_stack
           [(Some 1%nat, 19); (Some 2%nat, 8)] init_world).
  reflexivity.
Defined.

(** ** The two exercises *)

Lemma button_handler_effect (K : sdk_consts) (stk : host_stack)
    (button_state has_changed : Z) (w : world) :
  let w' := exec (Exer1.button_handler K stk button_state has_changed) w in
  my_conn w' = my_conn w /\
  calls w' = calls w ++
    (if truthy (Z.land has_changed (DK_BTN1_MSK K))
     then [Bt_lbs_send_button_state (truthy button_state)] else []).
Proof.
  cbv zeta. unfold Exer1.button_handler, Exer1.USER_BUTTON, when.
  destruct (truthy (Z.land has_changed (DK_BTN1_MSK K))); cbn;
    [|now rewrite app_nil_r].
  destruct (truthy (send_button_state_ret stk (truthy button_state))); cbn;
    now split.
Qed.

(** What one dispatched callback of exercise 1 adds to the call record. *)
Lemma dispatch1_effect (K : sdk_consts) (stk : host_stack) (e : Exer1.event)
    (w : world) :
  exists d,
    calls (exec (Exer1.dispatch K stk e) w) = calls w ++ d /\
    my_conn (exec (Exer1.dispatch K stk e) w) =
      match e with
      | Exer1.Ev_connected conn err =>
          if truthy err then my_conn w else ref_ret stk conn
      | _ => my_conn w
      end /\
    led_state (DK_LED2 K) d =
      match e with
      | Exer1.Ev_connected _ err => if truthy err then None else Some 1
      | Exer1.Ev_disconnected _ _ => Some 0
      | _ => None
      end /\
    notification_sends d =
      match e with
      | Exer1.Ev_button s c =>
          if truthy (Z.land c (DK_BTN1_MSK K)) then [truthy s] else []
      | _ => []
      end /\
    forall c, refs_held c d =
      match e with
      | Exer1.Ev_connected conn err =>
          if truthy err then 0 else if conn_ptr_eqb c conn then 1 else 0
      | Exer1.Ev_disconnected _ _ =>
          if conn_ptr_eqb c (my_conn w) then -1 else 0
      | _ => 0
      end.
Proof.
  destruct e as [conn err|conn reason|s c]; cbn [Exer1.dispatch].
  - destruct (truthy err) eqn:He.
    + exists []. unfold Exer1.connected_cb. rewrite He. cbn.
      rewrite app_nil_r. repeat split.
    + apply truthy_false_iff in He. subst err. rewrite connected_cb_ok.
      cbn [my_conn calls]. eexists. split; [reflexivity|].
      cbn. rewrite Z.eqb_refl. repeat split. intros c0. lia.
  - rewrite disconnected_cb_spec. cbn [my_conn calls]. eexists.
    split; [reflexivity|]. cbn. rewrite Z.eqb_refl. repeat split.
    intros c0. lia.
  - destruct (button_handler_effect K stk s c w) as (Hm & Hc).
    rewrite Hm, Hc. eexists. split; [reflexivity|].
    destruct (truthy (Z.land c (DK_BTN1_MSK K))); cbn; repeat split.
Qed.

(** The connection bookkeeping of a world: the stored pointer, the
    references held, the notifications sent, the status LED. *)
Lemma exercises_agree_from (K : sdk_consts)
    (evs : list (host_stack * Exer2.event)) (w1 w2 : world) :
  my_conn w1 = my_conn w2 ->
  (forall c, refs_held c (calls w1) = refs_held c (calls w2)) ->
  notification_sends (calls w1) = notification_sends (calls w2) ->
  led_state (DK_LED2 K) (calls w1) = led_state (DK_LED2 K) (calls w2) ->
  let v1 := exec (Exer1.run K (forget_run evs)) w1 in
  let v2 := exec (Exer2.run K evs) w2 in
  my_conn v1 = my_conn v2 /\
  (forall c, refs_held c (calls v1) = refs_held c (calls v2)) /\
  notification_sends (calls v1) = notification_sends (calls v2) /\
  led_state (DK_LED2 K) (calls v1) = led_state (DK_LED2 K) (calls v2).
Proof.
  cbv zeta. revert w1 w2.
  induction evs as [|[stk e] evs IH]; intros w1 w2 Hm Hr Hs Hl.
  - cbn. auto.
  - rewrite exec_run_cons.
    destruct (dispatch_effect K stk e w2)
      as (d2 & Hc2 & Hm2 & Hl2 & _ & Hs2 & _ & _ & Hr2).
    cbn [forget_run].
    destruct e as [conn err|conn reason|conn i l t|conn info|conn info|conn err|s c];
      cbn [forget];
      cbn [tracked_after link_led_after sends_of_run] in Hm2, Hl2, Hs2;
      rewrite ?app_nil_r in Hs2.
    1, 2, 7:
      cbn [Exer1.run]; rewrite exec_seq;
      match goal with
      | |- context [Exer1.dispatch _ _ ?e1] =>
          destruct (dispatch1_effect K stk e1 w1)
            as (d1 & Hc1 & Hm1 & Hl1 & Hs1 & Hr1)
      end;
      apply IH;
      [ rewrite Hm1, Hm2, ?Hm; reflexivity
      | intros c0; rewrite Hc1, Hc2, !refs_held_app, Hr1, Hr2, Hr, ?Hm;
        reflexivity
      | rewrite Hc1, Hc2, !notification_sends_app, Hs1, Hs2, Hs; reflexivity
      | rewrite Hc1, Hc2, !led_state_app, Hl1, Hl2, ?Hl; reflexivity ].
    all: apply IH;
      [ rewrite Hm2; exact Hm
      | intros c0; rewrite Hc2, refs_held_app, Hr2, Hr; lia
      | rewrite Hc2, notification_sends_app, Hs2, app_nil_r; exact Hs
      | rewrite Hc2, led_state_app, Hl2; exact Hl ].
Qed.

(** X7.  Exercise 2 keeps the connection bookkeeping of exercise 1.  Run the
    callbacks of exercise 2 on any events, and those of exercise 1 on the
    events it has a callback for, from the same world: both end with the
    same [my_conn], the same references held on every connection, the same
    notifications attempted and the same connection status LED.  The
    negotiation of exercise 2 does not disturb any of them. *)
Theorem X7_exercise2_keeps_exercise1_bookkeeping (K : sdk_consts)
    (evs : list (host_stack * Exer2.event)) (w : world) :
  let w1 := exec (Exer1.run K (forget_run evs)) w in
  let w2 := exec (Exer2.run K evs) w in
  my_conn w1 = my_conn w2 /\
  (forall c, refs_held c (calls w1) = refs_held c (calls w2)) /\
  notification_sends (calls w1) = notification_sends (calls w2) /\
  led_state (DK_LED2 K) (calls w1) = led_state (DK_LED2 K) (calls w2).
Proof.
  apply exercises_agree_from; reflexivity.
Qed.

(** ** Single callbacks *)

(** X8.  The value notified is whether any button is down, not whether
    [USER_BUTTON] is: when [USER_BUTTON] has changed and is up
    ([button_state] has its bit clear) while some other button is held
    ([button_state] is not 0), both button handlers notify "pressed". *)
Theorem X8_release_notified_as_pressed (K : sdk_consts) (stk : host_stack)
    (button_state has_changed : Z) (w : world) :
  truthy (Z.land has_changed (DK_BTN1_MSK K)) = true ->
  Z.land button_state (DK_BTN1_MSK K) = 0 ->
  button_state <> 0 ->
  notification_sends
    (calls (exec (Exer2.button_changed K stk button_state has_changed) w)) =
    notification_sends (calls w) ++ [true] /\
  notification_sends
    (calls (exec (Exer1.button_handler K stk button_state has_changed) w)) =
    notification_sends (calls w) ++ [true].
Proof.
  intros Hc _ Hs. apply truthy_true_iff in Hs.
  destruct (button_changed_effect K stk button_state has_changed w) as [_ H2].
  destruct (button_handler_effect K stk button_state has_changed w) as [_ H1].
  rewrite H1, H2, Hc, Hs, notification_sends_app. now split.
Qed.

Lemma X8_release_notified_as_pressed_witness :
  truthy (Z.land 1 (DK_BTN1_MSK ncs)) = true /\
  Z.land 2 (DK_BTN1_MSK ncs) = 0 /\
  2 <> 0 /\
  notification_sends
    (calls (exec (Exer2.button_changed ncs nominal_stack 2 1) init_world)) = [true] /\
  notification_sends
    (calls (exec (Exer1.button_handler ncs nominal_stack 2 1) init_world)) = [true].
Proof.
  split; [reflexivity|]. split; [reflexivity|]. split; [discriminate|].
  apply (X8_release_notified_as_pressed ncs nominal_stack 2 1 init_world);
    [reflexivity | reflexivity | discriminate].
Defined.

Lemma errors_app (l1 l2 : list log_entry) :
  errors (l1 ++ l2) = errors l1 ++ errors l2.
Proof. apply filter_app. Qed.

(** X9.  When [on_connected] gets past its two [return]s it logs one error
    line for each of the three requests that returns non-zero, with the
    value returned, in the order PHY, data length, MTU, and no other error
    line. *)
Theorem X9_one_error_line_per_refused_request (K : sdk_consts)
    (stk : host_stack) (conn : conn_ptr) (err : Z) (w : world) :
  Exer2.reaches_negotiation stk conn err = true ->
  let c := ref_ret stk conn in
  let phy_err := phy_update_ret stk c (Exer2.phy_param K) in
  let len_err := data_len_update_ret stk c (Exer2.data_len_param K) in
  let mtu_err := exchange_mtu_ret stk c in
  errors (log (exec (Exer2.on_connected K stk conn err) w)) =
  errors (log w) ++
  (if truthy phy_err
   then [{| level := ERR; fmt := "PHY update failed (err %d)";
            args := [LInt phy_err] |}] else []) ++
  (if truthy len_err
   then [{| level := ERR; fmt := "Data length update failed (err %d)";
            args := [LInt len_err] |}] else []) ++
  (if truthy mtu_err
   then [{| level := ERR; fmt := "MTU exchange failed (err %d)";
            args := [LInt mtu_err] |}] else []).
Proof.
  unfold Exer2.reaches_negotiation. intros H. cbv zeta.
  apply andb_prop in H as [He Hi]. apply negb_true_iff in He, Hi.
  unfold Exer2.on_connected. rewrite He; cbn. rewrite Hi; cbn.
  negotiation_paths stk; rewrite !errors_app; cbn;
    now rewrite ?app_nil_r, <- ?app_assoc.
Qed.

Lemma X9_one_error_line_per_refused_request_witness :
  Exer2.reaches_negotiation refusing_stack (Some 1%nat) 0 = true /\
  errors (log (exec (Exer2.on_connected ncs refusing_stack (Some 1%nat) 0)
                 init_world)) =
  [{| level := ERR; fmt := "PHY update failed (err %d)"; args := [LInt (-5)] |};
   {| level := ERR; fmt := "Data length update failed (err %d)";
      args := [LInt (-22)] |}].
Proof.
  split; [reflexivity|].
  apply (X9_one_error_line_per_refused_request ncs refusing_stack
           (Some 1%nat) 0 init_world).
  reflexivity.
Defined.

(** X10.  The supervision timeout that [on_connected] logs goes through a
    [uint16_t]: for a timeout of [t] units of 10 ms, [0 <= t <= 65535], the
    line carries [10 * t] modulo 65536, which is the timeout in ms exactly
    when [t <= 6553].  The interval is logged as [1.25 * interval] and the
    latency as it is. *)
Theorem X10_logged_timeout_wraps_above_6553 (K : sdk_consts)
    (stk : host_stack) (conn : conn_ptr) (err : Z) (w : world) :
  Exer2.reaches_negotiation stk conn err = true ->
  let info := snd (get_info_ret stk (ref_ret stk conn)) in
  0 <= le_timeout info <= 65535 ->
  In {| level := INF;
        fmt := "Connection parameters: interval %.2f ms, timeout %d ms, latency %d intervals";
        args := [LCenti (125 * le_interval info);
                 LInt ((10 * le_timeout info) mod 65536);
                 LInt (le_latency info)] |}
     (log (exec (Exer2.on_connected K stk conn err) w)) /\
  ((10 * le_timeout info) mod 65536 = 10 * le_timeout info <->
   le_timeout info <= 6553).
Proof.
  unfold Exer2.reaches_negotiation. intros H. cbv zeta. intros Ht.
  apply andb_prop in H as [He Hi]. apply negb_true_iff in He, Hi.
  split.
  - unfold Exer2.on_connected. rewrite He; cbn. rewrite Hi; cbn.
    unfold to_uint16. rewrite (Z.mul_comm (le_timeout _) 10).
    negotiation_paths stk; rewrite !in_app_iff; cbn; tauto.
  - split; intros H.
    + assert (0 <= (10 * le_timeout (snd (get_info_ret stk (ref_ret stk conn))))
                    mod 65536 < 65536) by (apply Z.mod_pos_bound; lia).
      lia.
    + apply Z.mod_small. lia.
Qed.

(** At 6554 units the line reports 4 ms, not 65540. *)
Lemma X10_logged_timeout_wraps_above_6553_witness :
  Exer2.reaches_negotiation long_timeout_stack (Some 1%nat) 0 = true /\
  0 <= 6554 <= 65535 /\
  In {| level := INF;
        fmt := "Connection parameters: interval %.2f ms, timeout %d ms, latency %d intervals";
        args := [LCenti 3000; LInt 4; LInt 0] |}
     (log (exec (Exer2.on_connected ncs long_timeout_stack (Some 1%nat) 0)
             init_world)) /\
  ((10 * 6554) mod 65536 = 10 * 6554 <-> 6554 <= 6553).
Proof.
  split; [reflexivity|]. split; [lia|].
  apply (X10_logged_timeout_wraps_above_6553 ncs long_timeout_stack
           (Some 1%nat) 0 init_world); [reflexivity | cbn; lia].
Defined.

(** X11.  A negative error code of [bt_conn_get_info], [-255 <= r <= -1], is
    detected and logged as [256 + r], the code seen through the [uint8_t]
    parameter it is assigned to.  [on_connected] then stops half way: the
    pointer is already stored, the reference taken and the LED lit, and no
    negotiation request is made. *)
Theorem X11_get_info_failure_leaves_connection_stored (K : sdk_consts)
    (stk : host_stack) (conn : conn_ptr) (r : Z) (w : world) :
  fst (get_info_ret stk (ref_ret stk conn)) = r ->
  -255 <= r <= -1 ->
  exec (Exer2.on_connected K stk conn 0) w =
  {| my_conn := ref_ret stk conn;
     exchange_params_func := exchange_params_func w;
     calls := calls w ++
       [Bt_conn_ref conn; Dk_set_led (DK_LED2 K) 1;
        Bt_conn_get_info (ref_ret stk conn)];
     log := log w ++
       [{| level := INF; fmt := "Connected"; args := [] |};
        {| level := ERR; fmt := "Cannot get connection info, err %d";
           args := [LInt (256 + r)] |}] |}.
Proof.
  intros Hr Hrange.
  assert (E : to_uint8 r = 256 + r).
  { unfold to_uint8. symmetry. apply (Z.mod_unique_pos r 256 (-1)); lia. }
  unfold Exer2.on_connected. rewrite truthy_0. cbn. rewrite Hr, E.
  assert (T : truthy (256 + r) = true) by (apply truthy_true_iff; lia).
  rewrite T. cbn. now rewrite <- !app_assoc.
Qed.

Lemma X11_get_info_failure_leaves_connection_stored_witness :
  fst (get_info_ret no_info_stack (ref_ret no_info_stack (Some 1%nat))) = -22 /\
  -255 <= -22 <= -1 /\
  exec (Exer2.on_connected ncs no_info_stack (Some 1%nat) 0) init_world =
  {| my_conn := Some 1%nat;
     exchange_params_func := None;
     calls := [Bt_conn_ref (Some 1%nat); Dk_set_led 1 1;
               Bt_conn_get_info (Some 1%nat)];
     log := [{| level := INF; fmt := "Connected"; args := [] |};
             {| level := ERR; fmt := "Cannot get connection info, err %d";
                args := [LInt 234] |}] |}.
Proof.
  split; [reflexivity|]. split; [lia|].
  apply (X11_get_info_failure_leaves_connection_stored ncs no_info_stack
           (Some 1%nat) (-22) init_world); [reflexivity | lia].
Defined.

Lemma lines_with_app (f : string) (l1 l2 : list log_entry) :
  lines_with f (l1 ++ l2) = lines_with f l1 ++ lines_with f l2.
Proof. apply filter_app. Qed.

(** The log of the [for] loop over a table: for each entry in turn, the
    "TX" line if its value is [tx_phy], then the "RX" line if it is
    [rx_phy]. *)
Lemma phy_loop_log (info : bt_conn_le_phy_info) (l : list Exer2.phy_name)
    (w : world) :
  log (exec (Exer2.phy_loop info l) w) =
  log w ++
  flat_map
    (fun p =>
       (if Exer2.phy_option p =? tx_phy info
        then [{| level := INF; fmt := "TX PHY updated: %s";
                 args := [LStr (Exer2.name p)] |}] else []) ++
       (if Exer2.phy_option p =? rx_phy info
        then [{| level := INF; fmt := "RX PHY updated: %s";
                 args := [LStr (Exer2.name p)] |}] else [])) l.
Proof.
  revert w. induction l as [|p l IH]; intros w.
  - cbn. now rewrite app_nil_r.
  - cbn [Exer2.phy_loop flat_map]. unfold when.
    destruct (Exer2.phy_option p =? tx_phy info);
      destruct (Exer2.phy_option p =? rx_phy info);
      cbn in IH |- *; rewrite IH; cbn; now rewrite <- ?app_assoc.
Qed.

Lemma phy_loop_lines (info : bt_conn_le_phy_info) (l : list Exer2.phy_name)
    (w : world) :
  let w' := exec (Exer2.phy_loop info l) w in
  lines_with "TX PHY updated: %s" (log w') =
    lines_with "TX PHY updated: %s" (log w) ++
    map (fun p => {| level := INF; fmt := "TX PHY updated: %s";
                     args := [LStr (Exer2.name p)] |})
        (filter (fun p => Exer2.phy_option p =? tx_phy info) l) /\
  lines_with "RX PHY updated: %s" (log w') =
    lines_with "RX PHY updated: %s" (log w) ++
    map (fun p => {| level := INF; fmt := "RX PHY updated: %s";
                     args := [LStr (Exer2.name p)] |})
        (filter (fun p => Exer2.phy_option p =? rx_phy info) l).
Proof.
  cbv zeta. rewrite phy_loop_log, !lines_with_app.
  split; f_equal; clear w;
    (induction l as [|p l IH]; [reflexivity|]);
    cbn [flat_map filter]; rewrite !lines_with_app, IH;
    destruct (Exer2.phy_option p =? tx_phy info);
    destruct (Exer2.phy_option p =? rx_phy info); reflexivity.
Qed.

Lemma filter_absent_key {A} (key : A -> Z) (k : Z) (l : list A) :
  ~ In k (map key l) -> filter (fun p => key p =? k) l = [].
Proof.
  induction l as [|q l IH]; intros Hnin; [reflexivity|].
  cbn in Hnin |- *. destruct (Z.eqb_spec (key q) k) as [E|E].
  - exfalso. apply Hnin. now left.
  - apply IH. intros Hin. apply Hnin. now right.
Qed.

Lemma filter_unique_key {A} (key : A -> Z) (k : Z) (l : list A) :
  NoDup (map key l) ->
  filter (fun p => key p =? k) l =
  match find (fun p => key p =? k) l with
  | Some p => [p]
  | None => []
  end.
Proof.
  induction l as [|p l IH]; intros H; [reflexivity|].
  cbn in H |- *. inversion H as [|? ? Hnin Hnd]; subst.
  destruct (Z.eqb_spec (key p) k) as [E|E]; [|now apply IH].
  f_equal. apply filter_absent_key. now rewrite <- E.
Qed.

(** X12.  When the five PHY values of [phy_names] are pairwise distinct,
    [on_le_phy_updated] logs at most one "TX" line and at most one "RX" line:
    the name of the table entry whose value is [info->tx_phy]
    ([info->rx_phy]), and no line at all for a value that is not in the
    table. *)
Theorem X12_phy_reported_by_table_lookup (K : sdk_consts) (conn : conn_ptr)
    (info : bt_conn_le_phy_info) (w : world) :
  NoDup (map Exer2.phy_option (Exer2.phy_names K)) ->
  let w' := exec (Exer2.on_le_phy_updated K conn info) w in
  lines_with "TX PHY updated: %s" (log w') =
    lines_with "TX PHY updated: %s" (log w) ++
    match find (fun p => Exer2.phy_option p =? tx_phy info) (Exer2.phy_names K) with
    | Some p => [{| level := INF; fmt := "TX PHY updated: %s";
                    args := [LStr (Exer2.name p)] |}]
    | None => []
    end /\
  lines_with "RX PHY updated: %s" (log w') =
    lines_with "RX PHY updated: %s" (log w) ++
    match find (fun p => Exer2.phy_option p =? rx_phy info) (Exer2.phy_names K) with
    | Some p => [{| level := INF; fmt := "RX PHY updated: %s";
                    args := [LStr (Exer2.name p)] |}]
    | None => []
    end.
Proof.
  intros Hnd. cbv zeta. unfold Exer2.on_le_phy_updated.
  destruct (phy_loop_lines info (Exer2.phy_names K) w) as [Ht Hr].
  rewrite Ht, Hr.
  rewrite !(filter_unique_key Exer2.phy_option _ _ Hnd).
  split; f_equal.
  - now destruct (find _ _).
  - now destruct (find _ _).
Qed.

Lemma X12_phy_reported_by_table_lookup_witness :
  NoDup (map Exer2.phy_option (Exer2.phy_names ncs)) /\
  let w' := exec (Exer2.on_le_phy_updated ncs (Some 1%nat)
                    {| tx_phy := 2; rx_phy := 8 |}) init_world in
  lines_with "TX PHY updated: %s" (log w') =
    [{| level := INF; fmt := "TX PHY updated: %s"; args := [LStr "2M PHY"] |}] /\
  lines_with "RX PHY updated: %s" (log w') = [].
Proof.
  assert (H : NoDup (map Exer2.phy_option (Exer2.phy_names ncs))).
  { cbn. repeat constructor; cbn; intuition discriminate. }
  split; [exact H|].
  apply (X12_phy_reported_by_table_lookup ncs (Some 1%nat)
           {| tx_phy := 2; rx_phy := 8 |} init_world H).
Defined.

(** * Start-up *)

Lemma rem_succ_2 (x : Z) : 0 <= x -> Z.rem (x + 1) 2 = 1 - Z.rem x 2.
Proof.
  intros H. rewrite !Z.rem_mod_nonneg by lia.
  pose proof (Z.mod_pos_bound x 2 ltac:(lia)).
  pose proof (Z.div_mod x 2 ltac:(lia)).
  symmetry. apply (Z.mod_unique_pos (x + 1) 2 (x / 2 + x mod 2)); lia.
Qed.

(** The blink loop appends, round after round, a write of the run status LED
    and a sleep of a second; it does not end and logs nothing. *)
Lemma blink_spec (K : sdk_consts) (fuel : nat) (s : Z) (b : boot) :
  0 <= s ->
  fst (Exer2.blink K fuel s b) = None /\
  boot_log (snd (Exer2.blink K fuel s b)) = boot_log b /\
  trace (snd (Exer2.blink K fuel s b)) =
    trace b ++
    flat_map (fun v => [App_call (Dk_set_led (DK_LED1 K) v); K_sleep 1000])
      (alternating fuel (Z.rem (s + 1) 2)).
Proof.
  revert s b. induction fuel as [|n IH]; intros s b Hs.
  - cbn. now rewrite app_nil_r.
  - cbn [Exer2.blink alternating flat_map]. cbn.
    destruct (IH (s + 1) {| trace := (trace b ++
                 [App_call (Dk_set_led (Exer2.RUN_STATUS_LED K) (Z.rem (s + 1) 2))]) ++
                 [K_sleep Exer2.RUN_LED_BLINK_INTERVAL];
               boot_log := boot_log b |} ltac:(lia)) as (H1 & H2 & H3).
    rewrite H1, H2, H3. cbn [trace boot_log].
    rewrite (rem_succ_2 (s + 1)) by lia.
    repeat split. now rewrite <- !app_assoc.
Qed.

Lemma blink1_spec (K : sdk_consts) (fuel : nat) (s : Z) (b : boot) :
  0 <= s ->
  fst (Exer1.blink K fuel s b) = None /\
  boot_log (snd (Exer1.blink K fuel s b)) = boot_log b /\
  trace (snd (Exer1.blink K fuel s b)) =
    trace b ++
    flat_map (fun v => [App_call (Dk_set_led (DK_LED1 K) v); K_sleep 1000])
      (alternating fuel (Z.rem (s + 1) 2)).
Proof.
  revert s b. induction fuel as [|n IH]; intros s b Hs.
  - cbn. now rewrite app_nil_r.
  - cbn [Exer1.blink alternating flat_map]. cbn.
    destruct (IH (s + 1) {| trace := (trace b ++
                 [App_call (Dk_set_led (Exer1.RUN_STATUS_LED K) (Z.rem (s + 1) 2))]) ++
                 [K_sleep Exer1.RUN_LED_BLINK_INTERVAL];
               boot_log := boot_log b |} ltac:(lia)) as (H1 & H2 & H3).
    rewrite H1, H2, H3. cbn [trace boot_log].
    rewrite (rem_succ_2 (s + 1)) by lia.
    repeat split. now rewrite <- !app_assoc.
Qed.

Lemma filter_init_blink (led : Z) (l : list Z) :
  filter is_init_call
    (flat_map (fun v => [App_call (Dk_set_led led v); K_sleep 1000]) l) = [].
Proof. induction l as [|v l IH]; [reflexivity | exact IH]. Qed.

(** Splits on what the four initialisation functions return and runs [main]
    up to the blink loop. *)
Ltac startup_paths a :=
  unfold Exer1.main, Exer2.main, Exer1.init_button, Exer2.init_button,
    startup_ok;
  cbn; destruct (truthy (leds_init_ret a)) eqn:Hleds; cbn;
  [| destruct (truthy (buttons_init_ret a)) eqn:Hbtn; cbn; rewrite ?Hbtn; cbn;
     [| destruct (truthy (enable_ret a)) eqn:Hen; cbn;
        [| destruct (truthy (adv_start_ret a)) eqn:Hadv; cbn ]]].

(** X13.  [main] returns exactly when an initialisation step fails: if
    [dk_leds_init], [dk_buttons_init], [bt_enable] or [bt_le_adv_start]
    returns non-zero it returns, however much time it is given; if all
    return 0 it never returns, it is in the blink loop after any number of
    rounds.  Both exercises. *)
Theorem X13_main_returns_iff_init_fails (K : sdk_consts) (G : gap_consts)
    (a : startup_answers) (fuel : nat) :
  fst (Exer2.main K G a fuel init_boot) =
    (if startup_ok a then None else Some tt) /\
  fst (Exer1.main K G a fuel init_boot) =
    (if startup_ok a then None else Some tt).
Proof.
  startup_paths a; try (split; reflexivity).
  split.
  - match goal with
    | |- fst (Exer2.blink K fuel 0 ?b) = _ =>
        now destruct (blink_spec K fuel 0 b ltac:(lia)) as (-> & _)
    end.
  - match goal with
    | |- fst (Exer1.blink K fuel 0 ?b) = _ =>
        now destruct (blink1_spec K fuel 0 b ltac:(lia)) as (-> & _)
    end.
Qed.

(** X14.  The initialisation calls of [main] are made in the order
    [dk_leds_init], [dk_buttons_init], [bt_conn_cb_register], [bt_enable],
    [bt_le_adv_start], and stop after the first that returns non-zero: the
    connection callbacks are registered before the stack is enabled, and
    advertising is started only when everything before it succeeded, and
    once.  Both exercises. *)
Theorem X14_init_calls_stop_at_first_failure (K : sdk_consts)
    (G : gap_consts) (a : startup_answers) (fuel : nat) :
  filter is_init_call (trace (snd (Exer2.main K G a fuel init_boot))) =
    Dk_leds_init ::
    (if truthy (leds_init_ret a) then [] else
     Dk_buttons_init Fn_button_changed ::
     (if truthy (buttons_init_ret a) then [] else
      Bt_conn_cb_register Tbl_connection_callbacks :: Bt_enable ::
      (if truthy (enable_ret a) then [] else
       [Bt_le_adv_start (Exer2.adv_param G) (Exer2.ad G) (Exer2.sd G)]))) /\
  filter is_init_call (trace (snd (Exer1.main K G a fuel init_boot))) =
    Dk_leds_init ::
    (if truthy (leds_init_ret a) then [] else
     Dk_buttons_init Fn_button_handler ::
     (if truthy (buttons_init_ret a) then [] else
      Bt_conn_cb_register Tbl_connection_callbacks :: Bt_enable ::
      (if truthy (enable_ret a) then [] else
       [Bt_le_adv_start (Exer1.adv_param G) (Exer1.ad G) (Exer1.sd G)]))).
Proof.
  startup_paths a; try (split; reflexivity).
  split.
  - match goal with
    | |- context [Exer2.blink K fuel 0 ?b] =>
        destruct (blink_spec K fuel 0 b ltac:(lia)) as (_ & _ & ->)
    end.
    rewrite filter_app, filter_init_blink. reflexivity.
  - match goal with
    | |- context [Exer1.blink K fuel 0 ?b] =>
        destruct (blink1_spec K fuel 0 b ltac:(lia)) as (_ & _ & ->)
    end.
    rewrite filter_app, filter_init_blink. reflexivity.
Qed.

(** X15.  [main] logs an error line exactly when an initialisation step
    fails: one line, carrying the value that step returned; and none when
    all succeed.  Both exercises, although they do not log the failure of
    the buttons at the same place. *)
Theorem X15_one_error_line_for_failed_startup (K : sdk_consts)
    (G : gap_consts) (a : startup_answers) (fuel : nat) :
  let reported :=
    if truthy (leds_init_ret a) then [[LInt (leds_init_ret a)]]
    else if truthy (buttons_init_ret a) then [[LInt (buttons_init_ret a)]]
    else if truthy (enable_ret a) then [[LInt (enable_ret a)]]
    else if truthy (adv_start_ret a) then [[LInt (adv_start_ret a)]]
    else [] in
  map args (errors (boot_log (snd (Exer2.main K G a fuel init_boot)))) = reported /\
  map args (errors (boot_log (snd (Exer1.main K G a fuel init_boot)))) = reported.
Proof.
  cbv zeta. startup_paths a; try (split; reflexivity).
  split.
  - match goal with
    | |- context [Exer2.blink K fuel 0 ?b] =>
        destruct (blink_spec K fuel 0 b ltac:(lia)) as (_ & -> & _)
    end.
    reflexivity.
  - match goal with
    | |- context [Exer1.blink K fuel 0 ?b] =>
        destruct (blink1_spec K fuel 0 b ltac:(lia)) as (_ & -> & _)
    end.
    reflexivity.
Qed.

(** X16.  When every initialisation step succeeds, [main] goes on for ever
    writing the run status LED and sleeping 1000 ms in turn; the values
    written are 1, 0, 1, 0, ..., starting with 1.  This is what the first
    [fuel] rounds do, for any [fuel] up to [INT_MAX], the last value of the
    [int] counter.  Both exercises. *)
Theorem X16_run_led_blinks (K : sdk_consts) (G : gap_consts)
    (a : startup_answers) (fuel : nat) :
  startup_ok a = true ->
  (Z.of_nat fuel <= 2147483647) ->
  trace (snd (Exer2.main K G a fuel init_boot)) =
    [Dk_leds_init; Dk_buttons_init Fn_button_changed;
     Bt_conn_cb_register Tbl_connection_callbacks; Bt_enable;
     Bt_le_adv_start (Exer2.adv_param G) (Exer2.ad G) (Exer2.sd G)] ++
    flat_map (fun v => [App_call (Dk_set_led (DK_LED1 K) v); K_sleep 1000])
      (alternating fuel 1) /\
  trace (snd (Exer1.main K G a fuel init_boot)) =
    [Dk_leds_init; Dk_buttons_init Fn_button_handler;
     Bt_conn_cb_register Tbl_connection_callbacks; Bt_enable;
     Bt_le_adv_start (Exer1.adv_param G) (Exer1.ad G) (Exer1.sd G)] ++
    flat_map (fun v => [App_call (Dk_set_led (DK_LED1 K) v); K_sleep 1000])
      (alternating fuel 1).
Proof.
  intros Hok _. revert Hok.
  startup_paths a; try discriminate.
  intros _. split.
  - match goal with
    | |- context [Exer2.blink K fuel 0 ?b] =>
        destruct (blink_spec K fuel 0 b ltac:(lia)) as (_ & _ & ->)
    end.
    reflexivity.
  - match goal with
    | |- context [Exer1.blink K fuel 0 ?b] =>
        destruct (blink1_spec K fuel 0 b ltac:(lia)) as (_ & _ & ->)
    end.
    reflexivity.
Qed.

Lemma X16_run_led_blinks_witness :
  startup_ok all_succeed = true /\
  (Z.of_nat 4 <= 2147483647) /\
  led_writes (DK_LED1 ncs)
    (trace (snd (Exer2.main ncs ncs_gap all_succeed 4 init_boot))) = [1; 0; 1; 0] /\
  led_writes (DK_LED1 ncs)
    (trace (snd (Exer1.main ncs ncs_gap all_succeed 4 init_boot))) = [1; 0; 1; 0].
Proof.
  split; [reflexivity|]. split; [cbn; lia|].
  destruct (X16_run_led_blinks ncs ncs_gap all_succeed 4 eq_refl
              ltac:(cbn; lia)) as [H2 H1].
  rewrite H2, H1. split; reflexivity.
Defined.

(** * What the callbacks hand to the stack *)

(** The calls one dispatched callback adds: an MTU request among them
    carries [exchange_func], a release is of what [my_conn] held. *)
Lemma dispatch_new_calls (K : sdk_consts) (stk : host_stack)
    (e : Exer2.event) (w : world) :
  exists d,
    calls (exec (Exer2.dispatch K stk e) w) = calls w ++ d /\
    Forall (fun x =>
              match x with
              | Bt_gatt_exchange_mtu _ f => f = Some Cb_exchange_func
              | Bt_conn_unref c => c = my_conn w
              | _ => True
              end) d.
Proof.
  destruct e as [conn err|conn reason|conn i l t|conn info|conn info|conn err|s c];
    cbn [Exer2.dispatch].
  - destruct (truthy err) eqn:He.
    + exists []. destruct (on_connected_failed K stk conn err w He) as [_ Hc].
      rewrite Hc, app_nil_r. now split.
    + apply truthy_false_iff in He. subst err.
      destruct (truthy (to_uint8 (fst (get_info_ret stk (ref_ret stk conn)))))
        eqn:Hi.
      * eexists. split; [now apply on_connected_calls_early|].
        repeat constructor.
      * eexists. split.
        { apply on_connected_calls. unfold Exer2.reaches_negotiation.
          now rewrite truthy_0, Hi. }
        repeat constructor.
  - rewrite on_disconnected_spec. cbn [calls]. eexists.
    split; [reflexivity|]. repeat constructor.
  - exists []. cbn. rewrite app_nil_r. now split.
  - exists [].
    destruct (on_le_phy_updated_frame K conn info w) as (_ & _ & Hc & _).
    rewrite Hc, app_nil_r. now split.
  - exists []. cbn. rewrite app_nil_r. now split.
  - cbn [exec bind get_exchange_params_func].
    destruct (exchange_params_func w) as [[]|].
    + destruct (exchange_func_frame stk conn err w) as (_ & _ & Hc & _).
      cbn [exec] in Hc. rewrite Hc. eexists. split; [reflexivity|].
      destruct (err =? 0); repeat constructor.
    + exists []. cbn. rewrite app_nil_r. now split.
  - destruct (button_changed_effect K stk s c w) as (_ & Hc).
    rewrite Hc. eexists. split; [reflexivity|].
    destruct (truthy (Z.land c (DK_BTN1_MSK K))); repeat constructor.
Qed.

Lemma mtu_requests_carry_callback_from (K : sdk_consts)
    (evs : list (host_stack * Exer2.event)) (w : world) :
  forallb has_callback (calls w) = true ->
  forallb has_callback (calls (exec (Exer2.run K evs) w)) = true.
Proof.
  revert w. induction evs as [|[stk e] evs IH]; intros w H; [exact H|].
  rewrite exec_run_cons. apply IH.
  destruct (dispatch_new_calls K stk e w) as (d & -> & Hd).
  rewrite forallb_app, H. cbn [andb].
  apply forallb_forall. intros x Hx.
  rewrite Forall_forall in Hd. specialize (Hd x Hx).
  destruct x as [| | | | |c0 f| | |]; try reflexivity. now subst f.
Qed.

(** X17.  In every run of callbacks from the initial state, each
    [bt_gatt_exchange_mtu] request handed to the stack has its completion
    callback set to [exchange_func]: [update_mtu] fills [exchange_params]
    before the request, the first time included. *)
Theorem X17_mtu_requests_carry_callback (K : sdk_consts)
    (evs : list (host_stack * Exer2.event)) :
  forallb has_callback (calls (exec (Exer2.run K evs) init_world)) = true.
Proof.
  now apply mtu_requests_carry_callback_from.
Qed.

Lemma tracked_after_no_connect (evs : list (host_stack * Exer2.event))
    (c0 : conn_ptr) :
  filter is_connected_ok evs = [] -> tracked_after evs c0 = c0.
Proof.
  revert c0. induction evs as [|[stk e] evs IH]; intros c0 H; [reflexivity|].
  cbn [filter] in H. unfold is_connected_ok in H at 1. cbn [snd] in H.
  destruct e; cbn [tracked_after]; try (now apply IH).
  destruct (truthy err); cbn [negb] in H; [now apply IH | discriminate].
Qed.

Lemma releases_null_from (K : sdk_consts)
    (evs : list (host_stack * Exer2.event)) (w : world) :
  my_conn w = None ->
  filter is_connected_ok evs = [] ->
  forallb releases_null (calls w) = true ->
  forallb releases_null (calls (exec (Exer2.run K evs) w)) = true.
Proof.
  revert w. induction evs as [|[stk e] evs IH]; intros w Hm Hn H; [exact H|].
  rewrite exec_run_cons.
  assert (Hn' : filter is_connected_ok evs = []).
  { cbn [filter] in Hn. now destruct (is_connected_ok (stk, e)). }
  assert (H1 : filter is_connected_ok [(stk, e)] = []).
  { cbn [filter] in Hn |- *. now destruct (is_connected_ok (stk, e)). }
  apply IH; [|exact Hn'|].
  - destruct (dispatch_effect K stk e w) as (d & _ & -> & _).
    now rewrite tracked_after_no_connect.
  - destruct (dispatch_new_calls K stk e w) as (d & -> & Hd).
    rewrite forallb_app, H. cbn [andb].
    apply forallb_forall. intros x Hx.
    rewrite Forall_forall in Hd. specialize (Hd x Hx).
    destruct x as [|c0| | | | | | |]; try reflexivity.
    now rewrite Hd, Hm.
Qed.

(** X18.  As long as no [connected] event without error has been processed,
    [my_conn] is [NULL], and every [disconnected] event that arrives makes
    the program call [bt_conn_unref(NULL)]: the handler does not test the
    pointer before releasing it. *)
Theorem X18_disconnect_before_connect_releases_null (K : sdk_consts)
    (evs : list (host_stack * Exer2.event)) :
  filter is_connected_ok evs = [] ->
  let w := exec (Exer2.run K evs) init_world in
  my_conn w = None /\
  forallb releases_null (calls w) = true /\
  List.length (filter is_unref (calls w)) =
    List.length (filter is_disconnected evs).
Proof.
  intros Hn. cbv zeta. split; [|split].
  - rewrite my_conn_after_run.
    now apply tracked_after_no_connect.
  - now apply releases_null_from.
  - now destruct (ref_counts_after_run K evs init_world) as [_ ->].
Qed.

Lemma X18_disconnect_before_connect_releases_null_witness :
  let evs := [(nominal_stack, Exer2.Ev_disconnected (Some 1%nat) 19);
              (nominal_stack, Exer2.Ev_connected (Some 1%nat) 62);
              (nominal_stack, Exer2.Ev_disconnected (Some 1%nat) 8)] in
  let w := exec (Exer2.run ncs evs) init_world in
  filter is_connected_ok evs = [] /\
  my_conn w = None /\
  forallb releases_null (calls w) = true /\
  List.length (filter is_unref (calls w)) = 2%nat.
Proof.
  cbv zeta. split; [reflexivity|].
  apply (X18_disconnect_before_connect_releases_null ncs
           [(nominal_stack, Exer2.Ev_disconnected (Some 1%nat) 19);
            (nominal_stack, Exer2.Ev_connected (Some 1%nat) 62);
            (nominal_stack, Exer2.Ev_disconnected (Some 1%nat) 8)]).
  reflexivity.
Defined.
